(** * gamee controller: buttons, controllers, the catalog and the session

    A shallow embedding of [src/controller.js].  JavaScript objects live
    in a heap of locations; plain objects used as maps ([buttons],
    [buttonAlias], [controllerTypes]) keep their insertion order and
    inherit from [Object.prototype]; every call threads the world and
    may throw. *)

From stdpp Require Import base strings gmap list numbers sorting.

Local Open Scope string_scope.
Local Open Scope list_scope.
Local Open Scope Z_scope.

(** ** Plain objects used as maps *)

Module Js.

(** The names every plain object inherits from [Object.prototype]
    (ECMAScript 19.1.3 and annex B.2.2; an engine may add its own).
    All of them hold a function, except [__proto__], an accessor that
    answers the prototype itself; all of them are truthy. *)
Definition objectPrototype : list string :=
  [ "constructor"; "hasOwnProperty"; "isPrototypeOf"; "propertyIsEnumerable";
    "toLocaleString"; "toString"; "valueOf"; "__proto__";
    "__defineGetter__"; "__defineSetter__";
    "__lookupGetter__"; "__lookupSetter__" ].

(** Own properties, oldest first. *)
Definition Object (V : Type) : Type := list (string * V).

(** What [o[k]] evaluates to. *)
Inductive Lookup (V : Type) : Type :=
| Own (v : V)
| Inherited (n : string)
| Undefined.
Arguments Own {V} v.
Arguments Inherited {V} n.
Arguments Undefined {V}.

Fixpoint own {V} (o : Object V) (k : string) : option V :=
  match o with
  | [] => None
  | (k', v) :: o' => if String.eqb k' k then Some v else own o' k
  end.

Definition inherited (k : string) : bool :=
  existsb (String.eqb k) objectPrototype.

(** [o[k]]: the own property, else the one of [Object.prototype]. *)
Definition get {V} (o : Object V) (k : string) : Lookup V :=
  match own o k with
  | Some v => Own v
  | None => if inherited k then Inherited k else Undefined
  end.

(** [o[k] = v] for [k] other than [__proto__] (see [assign] and
    [assignPrimitive]): an existing property keeps its place, a new one
    goes last. *)
Fixpoint put {V} (o : Object V) (k : string) (v : V) : Object V :=
  match o with
  | [] => [(k, v)]
  | (k', v') :: o' =>
      if String.eqb k' k then (k, v) :: o' else (k', v') :: put o' k v
  end.

(** [o[k] = v] for [v] an object or a function.  Under [__proto__] the
    assignment runs the inherited setter and replaces the prototype of
    [o]: no own property appears, and what [o] inherits from then on is
    not described here ([None]). *)
Definition assign {V} (o : Object V) (k : string) (v : V)
  : option (Object V) :=
  if String.eqb k "__proto__" then None else Some (put o k v).

(** [o[k] = v] for [v] a string: the [__proto__] setter ignores it. *)
Definition assignPrimitive {V} (o : Object V) (k : string) (v : V)
  : Object V :=
  if String.eqb k "__proto__" then o else put o k v.

(** [delete o[k]]: only an own property goes away. *)
Definition delete {V} (o : Object V) (k : string) : Object V :=
  List.filter (λ kv, negb (String.eqb kv.1 k)) o.

(** An array index is the canonical decimal text of an integer below
    [2^32 - 1]; [for (k in o)] visits those first, in ascending order. *)
Definition digit (a : Ascii.ascii) : option N :=
  let n := Ascii.N_of_ascii a in
  if ((48 <=? n) && (n <=? 57))%N then Some (n - 48)%N else None.

Fixpoint digits (acc : N) (s : string) : option N :=
  match s with
  | EmptyString => Some acc
  | String a s' =>
      match digit a with
      | Some d => digits (10 * acc + d)%N s'
      | None => None
      end
  end.

Definition arrayIndex (s : string) : option N :=
  match s with
  | EmptyString => None
  | String a s' =>
      match digit a, s' with
      | Some 0%N, String _ _ => None
      | _, _ =>
          match digits 0 s with
          | Some n => if (n <? 4294967295)%N then Some n else None
          | None => None
          end
      end
  end.

Definition indexed {V} (o : Object V) : list (N * (string * V)) :=
  omap (λ kv, match arrayIndex kv.1 with
              | Some n => Some (n, kv)
              | None => None
              end) o.

Definition named {V} (o : Object V) : list (string * V) :=
  List.filter (λ kv, match arrayIndex kv.1 with
                     | Some _ => false
                     | None => true
                     end) o.

Definition ascending {V} (x y : N * (string * V)) : Prop := (x.1 ≤ y.1)%N.

#[global] Instance ascending_dec {V} : RelDecision (@ascending V).
Proof. intros x y. unfold ascending. apply _. Defined.

(** The properties in the order [for (k in o)] visits them. *)
Definition forIn {V} (o : Object V) : list (string * V) :=
  (snd <$> merge_sort ascending (indexed o)) ++ named o.

End Js.

(** ** Values, objects and the world *)

Definition loc := nat.

(** What the [buttons] map of a controller can hold: a reference put
    there by [addButton], or a built-in of [Object.prototype] that
    [remapButton] copied from the prototype chain. *)
Inductive Slot : Type :=
| SRef (l : loc)
| SBuiltin (n : string).

(** The [button] field of an event payload. *)
Inductive Field : Type :=
| FUndefined
| FString (s : string)
| FBuiltin (n : string).

Record Payload : Type := mkPayload { button : Field }.

(** The listeners a Button installs on itself. *)
Inductive BHandler : Type :=
| SetPressed (b : bool).

(** The listeners the controllers install on themselves: the private
    [$keydown]/[$keyup] ones, the public [keydown]/[keyup] ones and the
    relays of the touch controller. *)
Inductive CHandler : Type :=
| Private (public : string)
| Public (event : string)
| Relay (public : string).

Record Button : Type := mkButton {
  _pressed : bool;
  key : string;
  keyCode : Z;
  b_on : list (string * BHandler)
}.

(** [Controller.prototype] carries [addButton], [enableKeyboard] and
    [remapButton]; the prototype of a touch controller is built from
    [TouchController.prototype] itself and carries none of them. *)
Inductive Proto : Type :=
| ControllerPrototype
| TouchPrototype.

Record Controller : Type := mkController {
  proto : Proto;
  buttons : Js.Object Slot;
  buttonAlias : Js.Object string;
  c_on : list (string * CHandler)
}.

Inductive Obj : Type :=
| OButton (b : Button)
| OController (c : Controller)
| OPlain.

(** The two closures [enableKeyboard] hands to the keyboard bridge. *)
Record KeyListener : Type := mkKeyListener {
  kl_self : loc;
  kl_keyCodes : gmap Z loc;
  kl_event : string
}.

(** Modelled from the spec: the host bridge ([global.$gameeNative], not
    under src/) takes the two announcements and answers nothing. *)
Inductive NativeCall : Type :=
| NativeRequestController (type : string)
| NativeAdditionalController (type : string).

Record World : Type := mkWorld {
  heap : gmap loc Obj;
  next : loc;
  mainController : option loc;
  gameeNative : list NativeCall;
  defaultPrevented : list Z;
  keydownListeners : list KeyListener;
  keyupListeners : list KeyListener;
  fired : list (loc * string)
}.

(** Nothing allocated, no main controller yet. *)
Definition init : World :=
  mkWorld ∅ 0%nat None [] [] [] [] [].

Inductive Exn : Type :=
| Error (message : string)
| TypeError.

(** ** Calls: state passing with exceptions *)

Inductive Res (A : Type) : Type :=
| Ret (a : A)
| Throw (e : Exn)
| Unmodelled
| OutOfFuel.
Arguments Ret {A} a.
Arguments Throw {A} e.
Arguments Unmodelled {A}.
Arguments OutOfFuel {A}.

Definition M (A : Type) : Type := World → Res A * World.

Definition ret {A} (a : A) : M A := λ w, (Ret a, w).
Definition throw {A} (e : Exn) : M A := λ w, (Throw e, w).
Definition unmodelled {A} : M A := λ w, (Unmodelled, w).
Definition outOfFuel {A} : M A := λ w, (OutOfFuel, w).

Definition bind {A B} (m : M A) (k : A → M B) : M B :=
  λ w, match m w with
       | (Ret a, w') => k a w'
       | (Throw e, w') => (Throw e, w')
       | (Unmodelled, w') => (Unmodelled, w')
       | (OutOfFuel, w') => (OutOfFuel, w')
       end.

Declare Scope js_scope.
Delimit Scope js_scope with js.
Notation "'var' x := m ; k" := (bind m (λ x, k))
  (at level 10, x name, m at level 100, k at level 200) : js_scope.
Notation "m ;; k" := (bind m (λ _, k))
  (at level 100, k at level 200, right associativity) : js_scope.
Local Open Scope js_scope.

Definition world : M World := λ w, (Ret w, w).
Definition modify (f : World → World) : M unit := λ w, (Ret tt, f w).

Definition setHeap (h : gmap loc Obj) (w : World) : World :=
  mkWorld h (next w) (mainController w) (gameeNative w)
          (defaultPrevented w) (keydownListeners w) (keyupListeners w) (fired w).

(** [new]: the object lands at the next free location. *)
Definition alloc (o : Obj) : M loc :=
  λ w, (Ret (next w),
        mkWorld (<[next w := o]> (heap w)) (S (next w)) (mainController w)
                (gameeNative w) (defaultPrevented w)
                (keydownListeners w) (keyupListeners w) (fired w)).

Definition store (l : loc) (o : Obj) : M unit :=
  modify (λ w, setHeap (<[l := o]> (heap w)) w).

(** A reference always points at an object; a dangling one is outside
    the model. *)
Definition load (l : loc) : M Obj :=
  λ w, match heap w !! l with
       | Some o => (Ret o, w)
       | None => (Unmodelled, w)
       end.

(** Modelled from the spec: a call on [global.$gameeNative], the host
    bridge; it is recorded and returns. *)
Definition native (c : NativeCall) : M unit :=
  modify (λ w, mkWorld (heap w) (next w) (mainController w)
                       (gameeNative w ++ [c]) (defaultPrevented w)
                       (keydownListeners w) (keyupListeners w) (fired w)).

(** Modelled from the spec: [ev.preventDefault()] on the key event with
    key code [code], the default-suppression handle of the keyboard
    bridge; it is recorded and returns. *)
Definition preventDefault (code : Z) : M unit :=
  modify (λ w, mkWorld (heap w) (next w) (mainController w)
                       (gameeNative w) (defaultPrevented w ++ [code])
                       (keydownListeners w) (keyupListeners w) (fired w)).

(** A Button-level event: [trigger(ev)] was called on the Button at
    [l].  The list is kept only to say which events fired. *)
Definition note (l : loc) (ev : string) : M unit :=
  modify (λ w, mkWorld (heap w) (next w) (mainController w) (gameeNative w)
                       (defaultPrevented w)
                       (keydownListeners w) (keyupListeners w)
                       (fired w ++ [(l, ev)])).

Fixpoint each {A} (f : A → M unit) (xs : list A) : M unit :=
  match xs with
  | [] => ret tt
  | x :: xs' => f x ;; each f xs'
  end.

(** ** The event channel *)

(** Modelled from the spec: the Event Channel (Bullet, a library that is
    not under src/).  Subscribing registers a handler under an event
    name; emitting runs the handlers registered under that name, in
    registration order, each to completion before the next. *)
Definition Channel (H : Type) : Type := list (string * H).

(** Modelled from the spec: [on(ev, h)] of the Event Channel. *)
Definition on {H} (c : Channel H) (ev : string) (h : H) : Channel H :=
  c ++ [(ev, h)].

(** Modelled from the spec: the handlers that [trigger(ev)] of the
    Event Channel runs, in the order it runs them. *)
Definition listeners {H} (c : Channel H) (ev : string) : list H :=
  snd <$> List.filter (λ eh, String.eqb eh.1 ev) c.

(** Modelled from the spec: the keyboard bridge ([gamee._keydown] and
    [gamee._keyup], not under src/): two subscription points; a
    physical key event runs the subscribed listeners in order. *)
Definition gamee_keydown (kl : KeyListener) : M unit :=
  modify (λ w, mkWorld (heap w) (next w) (mainController w) (gameeNative w)
                       (defaultPrevented w)
                       (keydownListeners w ++ [kl]) (keyupListeners w)
                       (fired w)).

(** Modelled from the spec: [gamee._keyup] of the keyboard bridge. *)
Definition gamee_keyup (kl : KeyListener) : M unit :=
  modify (λ w, mkWorld (heap w) (next w) (mainController w) (gameeNative w)
                       (defaultPrevented w)
                       (keydownListeners w) (keyupListeners w ++ [kl])
                       (fired w)).

(** ** Button *)

(** The two subscriptions of the constructor. *)
Definition Button_on : Channel BHandler :=
  on (on [] "keydown" (SetPressed true)) "keyup" (SetPressed false).

(** [function Button(key, keyCode)] *)
Definition newButton (key : string) (keyCode : Z) : M loc :=
  alloc (OButton (mkButton true key keyCode Button_on)).

Definition runBHandler (self : loc) (h : BHandler) : M unit :=
  match h with
  | SetPressed p =>
      var o := load self;
      match o with
      | OButton b => store self (OButton (mkButton p (key b) (keyCode b) (b_on b)))
      | _ => unmodelled
      end
  end.

(** [button.trigger(ev)]; the event is noted in [fired]. *)
Definition Button_trigger (self : loc) (b : Button) (ev : string) : M unit :=
  note self ev ;; each (runBHandler self) (listeners (b_on b) ev).

(** [Button.prototype.isDown] *)
Definition isDown (self : loc) : M bool :=
  var o := load self;
  match o with
  | OButton b => ret (_pressed b)
  | _ => throw TypeError
  end.

(** ** Controller *)

Section Engine.

(** The text [String(f)] of a built-in of [Object.prototype], which is
    what a built-in becomes when it is used as a property name.  It
    differs from engine to engine. *)
Variable builtinText : string → string.

Definition truthy (f : Field) : bool :=
  match f with
  | FUndefined => false
  | FString s => negb (String.eqb s "")
  | FBuiltin _ => true
  end.

Definition propertyKey (f : Field) : string :=
  match f with
  | FUndefined => "undefined"
  | FString s => s
  | FBuiltin n => builtinText n
  end.

Definition aliasField (a : Js.Lookup string) : Field :=
  match a with
  | Js.Own s => FString s
  | Js.Inherited n => FBuiltin n
  | Js.Undefined => FUndefined
  end.

Definition slotOf (a : Js.Lookup Slot) : option Slot :=
  match a with
  | Js.Own s => Some s
  | Js.Inherited n => Some (SBuiltin n)
  | Js.Undefined => None
  end.

(** The payload as the [$keydown]/[$keyup] listener of controller [c]
    leaves it: a truthy [button] with a truthy alias is overwritten
    with the alias. *)
Definition aliased (c : Controller) (d : Payload) : Payload :=
  let a := aliasField (Js.get (buttonAlias c) (propertyKey (button d))) in
  if truthy (button d) && truthy a then mkPayload a else d.

(** [target.trigger(ev)] for a value found in [buttons]. *)
Definition callTrigger (trigger : loc → string → option Payload → M (option Payload))
    (target : Slot) (ev : string) : M unit :=
  match target with
  | SRef l => trigger l ev None ;; ret tt
  | SBuiltin _ => throw TypeError
  end.

(** One listener of a controller, run on the payload object [data]
    ([None] when the event came without one); the answer is the payload
    object as the listener leaves it. *)
Definition runCHandler (trigger : loc → string → option Payload → M (option Payload))
    (self : loc) (h : CHandler) (data : option Payload) : M (option Payload) :=
  match h with
  | Relay public => trigger self public data
  | Private public =>
      match data with
      | None => throw TypeError
      | Some d =>
          var o := load self;
          match o with
          | OController c => trigger self public (Some (aliased c d))
          | _ => unmodelled
          end
      end
  | Public ev =>
      match data with
      | None => throw TypeError
      | Some d =>
          var o := load self;
          match o with
          | OController c =>
              if negb (truthy (button d)) then ret data
              else match slotOf (Js.get (buttons c) (propertyKey (button d))) with
                   | None => ret data
                   | Some target => callTrigger trigger target ev ;; ret data
                   end
          | _ => unmodelled
          end
      end
  end.

Fixpoint dispatch (run : CHandler → option Payload → M (option Payload))
    (hs : list CHandler) (data : option Payload) : M (option Payload) :=
  match hs with
  | [] => ret data
  | h :: hs' => var d := run h data; dispatch run hs' d
  end.

(** [o.trigger(ev, data)] on the object at [self].  A handler may
    trigger again, so the depth of nested triggers is bounded by
    [fuel]. *)
Fixpoint trigger (fuel : nat) (self : loc) (ev : string)
    (data : option Payload) : M (option Payload) :=
  match fuel with
  | O => outOfFuel
  | S fuel' =>
      var o := load self;
      match o with
      | OButton b => Button_trigger self b ev ;; ret data
      | OController c =>
          dispatch (λ h, runCHandler (trigger fuel') self h)
                   (listeners (c_on c) ev) data
      | OPlain => throw TypeError
      end
  end.

End Engine.

(** A call of a method of [Controller.prototype] on the object at
    [self]: an object that does not inherit it has nothing to call. *)
Definition method {A} (self : loc) (body : Controller → M A) : M A :=
  var o := load self;
  match o with
  | OController c =>
      match proto c with
      | ControllerPrototype => body c
      | TouchPrototype => throw TypeError
      end
  | _ => throw TypeError
  end.

Definition setButtons (c : Controller) (bs : Js.Object Slot) : Controller :=
  mkController (proto c) bs (buttonAlias c) (c_on c).

(** [Controller.prototype.addButton] *)
Definition addButton (self button : loc) : M unit :=
  method self (λ c,
    var o := load button;
    let k := match o with OButton b => key b | _ => "undefined" end in
    match Js.assign (buttons c) k (SRef button) with
    | Some bs => store self (OController (setButtons c bs))
    | None => unmodelled
    end).

(** The [keyCodes] table of [enableKeyboard]: every button with a
    truthy key code, the later one winning a shared code. *)
Definition keyCodesOf (h : gmap loc Obj) (bs : Js.Object Slot) : gmap Z loc :=
  foldl (λ keyCodes kv,
           match kv.2 with
           | SRef l =>
               match h !! l with
               | Some (OButton b) =>
                   if keyCode b =? 0 then keyCodes
                   else <[keyCode b := l]> keyCodes
               | _ => keyCodes
               end
           | SBuiltin _ => keyCodes
           end) ∅ (Js.forIn bs).

(** [Controller.prototype.enableKeyboard] *)
Definition enableKeyboard (self : loc) : M unit :=
  method self (λ c,
    var w := world;
    let keyCodes := keyCodesOf (heap w) (buttons c) in
    gamee_keydown (mkKeyListener self keyCodes "keydown") ;;
    gamee_keyup (mkKeyListener self keyCodes "keyup")).

Record NewProp : Type := mkNewProp { name : string }.

(** [Controller.prototype.remapButton] *)
Definition remapButton (self : loc) (oldName : string) (newProp : NewProp)
  : M unit :=
  method self (λ c,
    match slotOf (Js.get (buttons c) oldName) with
    | Some found =>
        let alias := Js.assignPrimitive (buttonAlias c) oldName (name newProp) in
        match Js.assign (buttons c) (name newProp) found with
        | Some bs =>
            store self (OController
                          (mkController (proto c) (Js.delete bs oldName)
                                        alias (c_on c)))
        | None => unmodelled
        end
    | None => ret tt
    end).

(** ** The controllers *)

(** The four subscriptions of the constructor. *)
Definition Controller_on : Channel CHandler :=
  on (on (on (on [] "$keydown" (Private "keydown"))
             "$keyup" (Private "keyup"))
         "keydown" (Public "keydown"))
     "keyup" (Public "keyup").

(** [function Controller()], run on a fresh [this] whose prototype
    chain is [p]. *)
Definition newController (p : Proto) : M loc :=
  alloc (OController (mkController p [] [] Controller_on)).

(** [this.on(ev, h)] on a controller. *)
Definition subscribe (self : loc) (ev : string) (h : CHandler) : M unit :=
  var o := load self;
  match o with
  | OController c =>
      store self (OController
                    (mkController (proto c) (buttons c) (buttonAlias c)
                                  (on (c_on c) ev h)))
  | _ => throw TypeError
  end.

Inductive Ctor : Type :=
| OneButtonController
| TwoButtonController
| FourButtonController
| FiveButtonController
| SixButtonController
| TouchController.

Definition addNewButton (self : loc) (key : string) (keyCode : Z) : M unit :=
  var b := newButton key keyCode; addButton self b.

(** [new k()] *)
Definition construct (k : Ctor) : M loc :=
  match k with
  | OneButtonController =>
      var this := newController ControllerPrototype;
      addNewButton this "button" 32 ;;
      ret this
  | TwoButtonController =>
      var this := newController ControllerPrototype;
      addNewButton this "left" 37 ;;
      addNewButton this "right" 39 ;;
      ret this
  | FourButtonController =>
      var this := newController ControllerPrototype;
      addNewButton this "up" 38 ;;
      addNewButton this "left" 37 ;;
      addNewButton this "right" 39 ;;
      addNewButton this "A" 32 ;;
      ret this
  | FiveButtonController =>
      var this := newController ControllerPrototype;
      addNewButton this "up" 38 ;;
      addNewButton this "left" 37 ;;
      addNewButton this "right" 39 ;;
      addNewButton this "down" 40 ;;
      addNewButton this "A" 32 ;;
      ret this
  | SixButtonController =>
      var this := newController ControllerPrototype;
      addNewButton this "up" 38 ;;
      addNewButton this "left" 37 ;;
      addNewButton this "right" 39 ;;
      addNewButton this "down" 40 ;;
      addNewButton this "A" 32 ;;
      addNewButton this "B" 17 ;;
      ret this
  | TouchController =>
      var this := newController TouchPrototype;
      subscribe this "$touchstart" (Relay "touchstart") ;;
      subscribe this "$touchend" (Relay "touchend") ;;
      subscribe this "$touchmove" (Relay "touchmove") ;;
      subscribe this "$touchleave" (Relay "touchleave") ;;
      subscribe this "$touchcancel" (Relay "touchcancel") ;;
      ret this
  end.

Definition controllerTypes : Js.Object Ctor :=
  [ ("OneButton", OneButtonController);
    ("TwoButtons", TwoButtonController);
    ("FourButtons", FourButtonController);
    ("FiveButtons", FiveButtonController);
    ("SixButtons", SixButtonController);
    ("Touch", TouchController) ].

Module Opts.
Record t : Type := mk {
  enableKeyboard : bool;
  buttons : option (Js.Object NewProp)
}.
(** [{}] *)
Definition empty : t := mk false None.
End Opts.

(** [new f()] for what [controllerTypes[type]] evaluated to.  Of the
    built-ins of [Object.prototype] only [constructor], which is
    [Object], can be used with [new]. *)
Definition instantiate (found : Js.Lookup Ctor) : M loc :=
  match found with
  | Js.Own k => construct k
  | Js.Inherited n =>
      if String.eqb n "constructor" then alloc OPlain else throw TypeError
  | Js.Undefined => throw TypeError
  end.

(** [createController] *)
Definition createController (type : string) (opts : option Opts.t) : M loc :=
  match Js.get controllerTypes type with
  | Js.Undefined =>
      throw (Error (String.append "Unsupported controller type, " type))
  | found =>
      let opts := default Opts.empty opts in
      var controller := instantiate found;
      (if Opts.enableKeyboard opts then enableKeyboard controller else ret tt) ;;
      match Opts.buttons opts with
      | Some bs =>
          each (λ kv, remapButton controller kv.1 kv.2) (Js.forIn bs)
      | None => ret tt
      end ;;
      ret controller
  end.

(** ** gamee.controller *)

Definition setMain (l : loc) : M unit :=
  modify (λ w, mkWorld (heap w) (next w) (Some l) (gameeNative w)
                       (defaultPrevented w)
                       (keydownListeners w) (keyupListeners w) (fired w)).

(** [gamee.controller.requestController] *)
Definition requestController (type : string) (opts : option Opts.t) : M loc :=
  var controller := createController type opts;
  native (NativeRequestController type) ;;
  setMain controller ;;
  ret controller.

(** [gamee.controller.additionalController] *)
Definition additionalController (type : string) (opts : option Opts.t)
  : M loc :=
  var controller := createController type opts;
  native (NativeAdditionalController type) ;;
  ret controller.

Section Events.

Variable builtinText : string → string.

(** [gamee.controller.trigger] *)
Definition Session_trigger (fuel : nat) (ev : string) (data : option Payload)
  : M (option Payload) :=
  var w := world;
  match mainController w with
  | Some main => trigger builtinText fuel main ev data
  | None => throw (Error "No controller present")
  end.

(** One of the closures of [enableKeyboard], run on a physical key
    event with key code [code]. *)
Definition keyListener (fuel : nat) (code : Z) (kl : KeyListener) : M unit :=
  match kl_keyCodes kl !! code with
  | None => ret tt
  | Some found =>
      preventDefault code ;;
      var o := load found;
      let k := match o with OButton b => FString (key b) | _ => FUndefined end in
      trigger builtinText fuel (kl_self kl) (kl_event kl) (Some (mkPayload k)) ;;
      ret tt
  end.

(** A physical key goes down, or up. *)
Definition windowKeydown (fuel : nat) (code : Z) : M unit :=
  var w := world; each (keyListener fuel code) (keydownListeners w).

Definition windowKeyup (fuel : nat) (code : Z) : M unit :=
  var w := world; each (keyListener fuel code) (keyupListeners w).

End Events.

(** ** Observations *)

(** The buttons of the controller at [l], by name, with their key
    codes, in the order of the [buttons] map. *)
Definition layout (w : World) (l : loc) : option (list (string * Z)) :=
  match heap w !! l with
  | Some (OController c) =>
      mapM (λ kv, match kv.2 with
                  | SRef b =>
                      match heap w !! b with
                      | Some (OButton bt) => Some (kv.1, keyCode bt)
                      | _ => None
                      end
                  | SBuiltin _ => None
                  end) (buttons c)
  | _ => None
  end.

(** The catalog as the specification tabulates it (section 4.4):
    identifier, then button name and key code. *)
Definition catalog : Js.Object (list (string * Z)) :=
  [ ("OneButton", [("button", 32)]);
    ("TwoButtons", [("left", 37); ("right", 39)]);
    ("FourButtons", [("up", 38); ("left", 37); ("right", 39); ("A", 32)]);
    ("FiveButtons",
     [("up", 38); ("left", 37); ("right", 39); ("down", 40); ("A", 32)]);
    ("SixButtons",
     [("up", 38); ("left", 37); ("right", 39); ("down", 40); ("A", 32);
      ("B", 17)]);
    ("Touch", []) ].

(** A controller whose key events are wired as [Controller] wires
    them. *)
Definition wired (c : Controller) : Prop :=
  listeners (c_on c) "$keydown" = [Private "keydown"] ∧
  listeners (c_on c) "$keyup" = [Private "keyup"] ∧
  listeners (c_on c) "keydown" = [Public "keydown"] ∧
  listeners (c_on c) "keyup" = [Public "keyup"].


Section Session.

Variable builtinText : string → string.
Variable fuel : nat.




End Session.

(** What [remapButton] leaves of controller [c] when [oldName] names
    [found]. *)
Definition remapped (c : Controller) (oldName : string) (newProp : NewProp)
    (found : Slot) : Controller :=
  mkController (proto c)
    (Js.delete (Js.put (buttons c) (name newProp) found) oldName)
    (Js.assignPrimitive (buttonAlias c) oldName (name newProp))
    (c_on c).

(** [keeps R m]: whatever [m] answers, the world it leaves is related
    by [R] to the world it started in. *)
Definition keeps {A} (R : relation World) (m : M A) : Prop :=
  ∀ w, R w (m w).2.

(** The main controller is the same. *)
Definition sameMain : relation World :=
  λ w w', mainController w' = mainController w.

(** Nothing was said to the host, no key event was taken, no Button
    was triggered, the main controller is the same and no object went
    away. *)
Definition quiet : relation World :=
  λ w w', mainController w' = mainController w ∧
          gameeNative w' = gameeNative w ∧
          defaultPrevented w' = defaultPrevented w ∧
          fired w' = fired w ∧
          ∀ l, is_Some (heap w !! l) → is_Some (heap w' !! l).

(** The text V8 prints for the built-ins of [Object.prototype]. *)
Definition v8 (n : string) : string :=
  if String.eqb n "__proto__" then "[object Object]"
  else String.append "function "
         (String.append (if String.eqb n "constructor" then "Object" else n)
                        "() { [native code] }").

(** ** Worlds and relations the further properties speak of *)

(** The name of the Button event, and of the private event the host
    sends for it. *)
Definition keyEvent (down : bool) : string :=
  if down then "keydown" else "keyup".

Definition privateEvent (down : bool) : string :=
  if down then "$keydown" else "$keyup".

(** The world after the Button [b] at [l] took a [keydown]
    ([down = true]) or a [keyup]. *)
Definition pressed (l : loc) (b : Button) (down : bool) (w : World) : World :=
  mkWorld (<[l := OButton (mkButton down (key b) (keyCode b) (b_on b))]> (heap w))
          (next w) (mainController w) (gameeNative w) (defaultPrevented w)
          (keydownListeners w) (keyupListeners w)
          (fired w ++ [(l, keyEvent down)]).

(** The controller [c] holds, under [name], the Button at [b], which is
    as [new Button(name, code)] made it. *)
Definition holds (w : World) (c : Controller) (name : string) (code : Z)
    (b : loc) : Prop :=
  Js.own (buttons c) name = Some (SRef b) ∧
  heap w !! b = Some (OButton (mkButton true name code Button_on)).

(** The world after [enableKeyboard] on the controller [c] at [self]. *)
Definition listening (self : loc) (c : Controller) (w : World) : World :=
  let keyCodes := keyCodesOf (heap w) (buttons c) in
  mkWorld (heap w) (next w) (mainController w) (gameeNative w)
          (defaultPrevented w)
          (keydownListeners w ++ [mkKeyListener self keyCodes "keydown"])
          (keyupListeners w ++ [mkKeyListener self keyCodes "keyup"])
          (fired w).

(** The world after [preventDefault] on a key event with code [code]. *)
Definition prevented (code : Z) (w : World) : World :=
  mkWorld (heap w) (next w) (mainController w) (gameeNative w)
          (defaultPrevented w ++ [code])
          (keydownListeners w) (keyupListeners w) (fired w).

(** One round of the loop of [enableKeyboard]. *)
Definition keyCodeStep (h : gmap loc Obj) (keyCodes : gmap Z loc)
    (kv : string * Slot) : gmap Z loc :=
  match kv.2 with
  | SRef l =>
      match h !! l with
      | Some (OButton b) =>
          if keyCode b =? 0 then keyCodes else <[keyCode b := l]> keyCodes
      | _ => keyCodes
      end
  | SBuiltin _ => keyCodes
  end.

(** A physical key event: down, or up. *)
Definition windowKey (builtinText : string → string) (down : bool)
  : nat → Z → M unit :=
  if down then windowKeydown builtinText else windowKeyup builtinText.

(** The objects below location [n] are the same. *)
Definition untouched (n : loc) : relation World :=
  λ w w', ∀ l, (l < n)%nat → heap w' !! l = heap w !! l.

(** What a Button keeps through an event: everything but [_pressed].
    Any other object keeps everything. *)
Definition sameButton (o o' : option Obj) : Prop :=
  match o, o' with
  | Some (OButton b), Some (OButton b') =>
      key b' = key b ∧ keyCode b' = keyCode b ∧ b_on b' = b_on b
  | _, _ => o' = o
  end.

(** Nothing changed but the [_pressed] of Buttons, the list of events
    fired and the list of defaults prevented. *)
Definition pressedOnly : relation World :=
  λ w w', next w' = next w ∧
          mainController w' = mainController w ∧
          gameeNative w' = gameeNative w ∧
          keydownListeners w' = keydownListeners w ∧
          keyupListeners w' = keyupListeners w ∧
          ∀ l, sameButton (heap w !! l) (heap w' !! l).

(** A call that, when it throws, throws a [TypeError]. *)
Definition typeErrorsOnly {A} (m : M A) : Prop :=
  ∀ w e, (m w).1 = Throw e → e = TypeError.

(** The world after the game subscribed the listeners [extra], in
    order, on the controller [c] at [l]. *)
Definition subscribed (l : loc) (c : Controller) (extra : Channel CHandler)
    (w : World) : World :=
  setHeap (<[l := OController
                    (mkController (proto c) (buttons c) (buttonAlias c)
                                  (c_on c ++ extra))]> (heap w)) w.

(** * Properties *)

(** ** Plain objects *)

Module JsFacts.
Import Js.

Section Lookup.
Context {V : Type}.
Implicit Types (o : Object V) (k : string) (v : V).

Lemma own_put_eq o k v : own (put o k v) k = Some v.
Proof.
  induction o as [|[k' v'] o IH]; cbn.
  - by rewrite String.eqb_refl.
  - destruct (String.eqb_spec k' k) as [->|Hne]; cbn.
    + by rewrite String.eqb_refl.
    + destruct (String.eqb_spec k' k); [done|]. exact IH.
Qed.

Lemma own_put_ne o k k' v : k ≠ k' → own (put o k v) k' = own o k'.
Proof.
  intros Hne. induction o as [|[k0 v0] o IH]; cbn.
  - by destruct (String.eqb_spec k k').
  - destruct (String.eqb_spec k0 k) as [->|Hk]; cbn.
    + by destruct (String.eqb_spec k k').
    + by rewrite IH.
Qed.

Lemma own_delete_eq o k : own (delete o k) k = None.
Proof.
  unfold delete. induction o as [|[k' v'] o IH]; [done|]. cbn.
  destruct (String.eqb_spec k' k) as [->|Hne]; cbn; [done|].
  by destruct (String.eqb_spec k' k).
Qed.

Lemma own_delete_ne o k k' : k ≠ k' → own (delete o k) k' = own o k'.
Proof.
  intros Hne. unfold delete.
  induction o as [|[k0 v0] o IH]; [done|]. cbn.
  destruct (String.eqb_spec k0 k) as [->|Hk]; cbn.
  - by destruct (String.eqb_spec k k').
  - by rewrite IH.
Qed.

(** Writing a property and deleting it again is deleting it. *)
Lemma delete_put o k v : delete (put o k v) k = delete o k.
Proof.
  unfold delete. induction o as [|[k' v'] o IH]; cbn.
  - by rewrite String.eqb_refl.
  - destruct (String.eqb_spec k' k) as [->|Hne]; cbn.
    + by rewrite String.eqb_refl.
    + destruct (String.eqb_spec k' k); [done|]. cbn. by rewrite IH.
Qed.

Lemma get_own o k v : get o k = Own v ↔ own o k = Some v.
Proof.
  unfold get. destruct (own o k) as [v'|]; [|destruct (inherited k)];
    split; intros [= ?]; congruence.
Qed.

Lemma get_undefined o k :
  get o k = Undefined ↔ own o k = None ∧ inherited k = false.
Proof.
  unfold get. destruct (own o k) as [v'|]; [|destruct (inherited k)];
    split; try discriminate; try (intros [? ?]; discriminate); done.
Qed.

End Lookup.
End JsFacts.

(** ** Running the model on a symbolic heap *)

Ltac heap_step :=
  first [ rewrite lookup_insert_eq | rewrite lookup_insert_ne by lia ].

Ltac run :=
  repeat (progress (cbn;
                    unfold bind, load, store, modify, alloc, ret, throw,
                           unmodelled, outOfFuel, world, note, native,
                           preventDefault, method,
                           setMain, setHeap, gamee_keydown, gamee_keyup,
                           isDown, newButton, newController, subscribe,
                           addNewButton, addButton, enableKeyboard,
                           remapButton, instantiate, createController,
                           requestController, additionalController,
                           Session_trigger, keyListener, windowKeydown, windowKeyup;
                    cbn)
          || heap_step).

(** ** What a call leaves alone *)

#[global] Instance sameMain_preorder : PreOrder sameMain.
Proof. split; [done|]. intros x y z. unfold sameMain. congruence. Qed.

#[global] Instance quiet_preorder : PreOrder quiet.
Proof.
  split; [done|].
  intros x y z (? & ? & ? & ? & Hxy) (? & ? & ? & ? & Hyz).
  repeat split; [congruence..|]. intros l Hl. by apply Hyz, Hxy.
Qed.


Create HintDb keeps discriminated.

Section Keeps.
Context {R : relation World} `{!PreOrder R}.

Lemma keeps_ret {A} (a : A) : keeps R (ret a).
Proof. by intros w. Qed.

Lemma keeps_throw {A} e : keeps R (@throw A e).
Proof. by intros w. Qed.

Lemma keeps_unmodelled {A} : keeps R (@unmodelled A).
Proof. by intros w. Qed.

Lemma keeps_outOfFuel {A} : keeps R (@outOfFuel A).
Proof. by intros w. Qed.

Lemma keeps_world : keeps R world.
Proof. by intros w. Qed.

Lemma keeps_load l : keeps R (load l).
Proof. intros w. unfold load. by destruct (heap w !! l). Qed.

Lemma keeps_bind {A B} (m : M A) (k : A → M B) :
  keeps R m → (∀ a, keeps R (k a)) → keeps R (bind m k).
Proof.
  intros Hm Hk w. unfold bind. specialize (Hm w).
  destruct (m w) as [[a|e| |] w']; [|done..].
  etrans; [exact Hm|apply Hk].
Qed.

Lemma keeps_each {A} (f : A → M unit) xs :
  (∀ x, keeps R (f x)) → keeps R (each f xs).
Proof.
  intros Hf. induction xs as [|x xs IH]; cbn; [apply keeps_ret|].
  apply keeps_bind; [apply Hf|done].
Qed.

End Keeps.

#[global] Hint Resolve keeps_ret keeps_throw keeps_unmodelled keeps_outOfFuel
  keeps_world keeps_load : keeps.

(** Breaks a sequence of calls into its calls and settles each with
    the lemmas of [keeps]. *)
Ltac preserve :=
  repeat first
    [ apply keeps_bind; [|intros ?]
    | apply keeps_each; intros ?
    | match goal with
      | |- ∀ _, _ => intros ?
      | |- keeps _ (match ?x with _ => _ end) => destruct x
      | |- keeps _ (if ?x then _ else _) => destruct x
      | |- keeps _ (let _ := _ in _) => cbv zeta
      end
    | solve [eauto with keeps typeclass_instances] ].

Lemma store_sameMain l o : keeps sameMain (store l o).
Proof. done. Qed.

Lemma note_sameMain l ev : keeps sameMain (note l ev).
Proof. done. Qed.

Lemma native_sameMain c : keeps sameMain (native c).
Proof. done. Qed.

Lemma preventDefault_sameMain code : keeps sameMain (preventDefault code).
Proof. done. Qed.

Lemma store_quiet l o : keeps quiet (store l o).
Proof.
  intros w. repeat split. cbn. intros l' Hl.
  destruct (decide (l = l')) as [->|?];
    [rewrite lookup_insert_eq; eauto|by rewrite lookup_insert_ne].
Qed.

Lemma alloc_quiet o : keeps quiet (alloc o).
Proof.
  intros w. repeat split. cbn. intros l' Hl.
  destruct (decide (next w = l')) as [->|?];
    [rewrite lookup_insert_eq; eauto|by rewrite lookup_insert_ne].
Qed.

Lemma gamee_keydown_quiet kl : keeps quiet (gamee_keydown kl).
Proof. done. Qed.

Lemma gamee_keyup_quiet kl : keeps quiet (gamee_keyup kl).
Proof. done. Qed.

#[global] Hint Resolve store_sameMain note_sameMain native_sameMain
  preventDefault_sameMain
  store_quiet alloc_quiet gamee_keydown_quiet gamee_keyup_quiet : keeps.

Lemma createController_quiet type opts :
  keeps quiet (createController type opts).
Proof.
  unfold createController, instantiate, construct, addNewButton, addButton,
    subscribe, newController, newButton, enableKeyboard, remapButton, method.
  preserve.
Qed.

Lemma instantiate_returns found w l w1 :
  instantiate found w = (Ret l, w1) → l = next w ∧ is_Some (heap w1 !! l).
Proof.
  destruct found as [[]|n|]; cbn; [..|destruct (n =? "constructor")%string|];
    run; intros [= <- <-]; (split; [done|]); cbn; run; eauto.
Qed.





Section Properties.

Variable builtinText : string → string.

(** *** Key events on a controller *)

Lemma bind_ret_r {A} (m : M A) w : bind m ret w = m w.
Proof. unfold bind, ret. by destruct (m w) as [[]]. Qed.

Lemma bind_load {A} l o (k : Obj → M A) w :
  heap w !! l = Some o → bind (load l) k w = k o w.
Proof. intros H. unfold bind, load. by rewrite H. Qed.

(** The private listener forwards the aliased payload to the public
    event. *)
Lemma trigger_private fuel w self c ev public d :
  heap w !! self = Some (OController c) →
  listeners (c_on c) ev = [Private public] →
  trigger builtinText (S fuel) self ev (Some d) w =
  trigger builtinText fuel self public (Some (aliased builtinText c d)) w.
Proof.
  intros Hself Hon. cbn -[listeners].
  rewrite (bind_load _ _ _ _ Hself), Hon. cbn.
  rewrite bind_ret_r. by rewrite (bind_load _ _ _ _ Hself).
Qed.

(** The public listener drops an event whose [button] is falsy or names
    nothing in [buttons]. *)
Lemma trigger_public_dropped fuel w self c ev event d :
  heap w !! self = Some (OController c) →
  listeners (c_on c) ev = [Public event] →
  truthy (button d) = false ∨
  Js.get (buttons c) (propertyKey builtinText (button d)) = Js.Undefined →
  trigger builtinText (S fuel) self ev (Some d) w = (Ret (Some d), w).
Proof.
  intros Hself Hon Hdrop. cbn -[listeners].
  rewrite (bind_load _ _ _ _ Hself), Hon. cbn.
  rewrite bind_ret_r, (bind_load _ _ _ _ Hself).
  destruct Hdrop as [-> | ->]; [done|].
  by destruct (truthy (button d)).
Qed.

(** The public listener hands an event that names a value of [buttons]
    to that value's [trigger]. *)
Lemma trigger_public_found fuel w self c ev event d target :
  heap w !! self = Some (OController c) →
  listeners (c_on c) ev = [Public event] →
  truthy (button d) = true →
  slotOf (Js.get (buttons c) (propertyKey builtinText (button d)))
    = Some target →
  trigger builtinText (S fuel) self ev (Some d) w =
  (callTrigger (trigger builtinText fuel) target event ;; ret (Some d))%js w.
Proof.
  intros Hself Hon Htrue Hfound. cbn -[listeners].
  rewrite (bind_load _ _ _ _ Hself), Hon. cbn.
  rewrite bind_ret_r, (bind_load _ _ _ _ Hself), Htrue, Hfound.
  done.
Qed.

(** A [keydown] or [keyup] on a Button is noted and sets its state. *)
Lemma trigger_button fuel w l b (down : bool) data :
  heap w !! l = Some (OButton b) →
  b_on b = Button_on →
  trigger builtinText (S fuel) l (if down then "keydown" else "keyup") data w =
  (Ret data,
   mkWorld (<[l := OButton (mkButton down (key b) (keyCode b) (b_on b))]> (heap w))
           (next w) (mainController w) (gameeNative w) (defaultPrevented w)
           (keydownListeners w) (keyupListeners w)
           (fired w ++ [(l, if down then "keydown" else "keyup")])).
Proof.
  intros Hl Hon. cbn. rewrite (bind_load _ _ _ _ Hl).
  unfold Button_trigger. rewrite Hon.
  destruct down; run; rewrite Hl; run; by rewrite Hon.
Qed.

(** *** Remapping *)


Lemma remapButton_found w self c oldName newProp found :
  heap w !! self = Some (OController c) →
  proto c = ControllerPrototype →
  slotOf (Js.get (buttons c) oldName) = Some found →
  name newProp ≠ "__proto__" →
  remapButton self oldName newProp w =
  (Ret tt,
   setHeap (<[self := OController (remapped c oldName newProp found)]> (heap w)) w).
Proof.
  intros Hself Hproto Hfound Hname. unfold remapButton, method.
  rewrite (bind_load _ _ _ _ Hself), Hproto, Hfound. unfold Js.assign.
  destruct (String.eqb_spec (name newProp) "__proto__"); [done|].
  unfold remapped. by rewrite Hproto.
Qed.

Lemma wired_remapped c oldName newProp found :
  wired c → wired (remapped c oldName newProp found).
Proof. done. Qed.

(** C2. On a controller that holds a Button under [left],
    [remapButton("left", {name: "throttle"})] leaves no [left] in
    [buttons], puts the same Button under [throttle] and records the
    alias; a [$keydown] for [left] then comes back as [keydown] on that
    Button, and on nothing else. *)
Theorem C2_remap_left_to_throttle fuel w self c l b :
  heap w !! self = Some (OController c) →
  proto c = ControllerPrototype →
  wired c →
  Js.get (buttons c) "left" = Js.Own (SRef l) →
  heap w !! l = Some (OButton b) →
  b_on b = Button_on →
  ∃ c1 w1 w2,
    remapButton self "left" (mkNewProp "throttle") w = (Ret tt, w1) ∧
    heap w1 !! self = Some (OController c1) ∧
    Js.get (buttons c1) "left" = Js.Undefined ∧
    Js.get (buttons c1) "throttle" = Js.Own (SRef l) ∧
    Js.get (buttonAlias c1) "left" = Js.Own "throttle" ∧
    trigger builtinText (S (S (S fuel))) self "$keydown"
            (Some (mkPayload (FString "left"))) w1
      = (Ret (Some (mkPayload (FString "throttle"))), w2) ∧
    fired w2 = fired w1 ++ [(l, "keydown")] ∧
    isDown l w2 = (Ret true, w2).
Proof.
  intros Hself Hproto Hwired Hleft Hl Hon.
  assert (Hne : self ≠ l) by (intros Heq; subst; rewrite Hself in Hl; discriminate).
  pose (np := mkNewProp "throttle").
  assert (Hself1 : heap (setHeap (<[self := OController (remapped c "left" np (SRef l))]> (heap w)) w) !! self
                   = Some (OController (remapped c "left" np (SRef l))))
    by (cbn; apply lookup_insert_eq).
  assert (Hthrottle : Js.get (buttons (remapped c "left" np (SRef l))) "throttle"
                      = Js.Own (SRef l)).
  { apply JsFacts.get_own. cbn.
    rewrite JsFacts.own_delete_ne by done. apply JsFacts.own_put_eq. }
  assert (Halias : Js.get (buttonAlias (remapped c "left" np (SRef l))) "left"
                   = Js.Own "throttle").
  { apply JsFacts.get_own. cbn. apply JsFacts.own_put_eq. }
  eexists _, _, _.
  split. { apply remapButton_found; [done|done| by rewrite Hleft |done]. }
  split; [exact Hself1|].
  split. { apply JsFacts.get_undefined. split; [apply JsFacts.own_delete_eq|done]. }
  split; [exact Hthrottle|].
  split; [exact Halias|].
  destruct Hwired as (Hpd & _ & Hd & _).
  split.
  { rewrite (trigger_private _ _ _ _ _ _ _ Hself1 Hpd).
    replace (aliased _ _ _) with (mkPayload (FString "throttle"))
      by (unfold aliased; cbn [button propertyKey]; by rewrite Halias).
    rewrite (trigger_public_found _ _ _ _ _ "keydown" _ (SRef l) Hself1 Hd);
      [|done|cbn [button propertyKey]; by rewrite Hthrottle].
    unfold callTrigger, bind.
    rewrite (trigger_button fuel _ l b true None);
      [reflexivity | cbn; by rewrite lookup_insert_ne | done]. }
  split; [reflexivity|].
  run. reflexivity.
Qed.

(** X22. [remapButton(k, {name: k})] on a controller that holds an
    object as an own property under [k], for [k] other than
    [__proto__], returns, deletes [k] from [buttons] (nothing else
    changes there) and records [k] as its own alias.  A host [$keydown]
    or [$keyup] for [k] then changes nothing: it returns its payload
    when [Object.prototype] has no [k], and throws a [TypeError] when it
    has (the public listener finds the built-in under [k]). *)
Theorem X22_remap_to_same_name fuel w self c l k :
  heap w !! self = Some (OController c) →
  proto c = ControllerPrototype →
  wired c →
  Js.get (buttons c) k = Js.Own (SRef l) →
  k ≠ "__proto__" →
  ∃ c1 w1,
    remapButton self k (mkNewProp k) w = (Ret tt, w1) ∧
    heap w1 !! self = Some (OController c1) ∧
    buttons c1 = Js.delete (buttons c) k ∧
    Js.own (buttons c1) k = None ∧
    Js.get (buttonAlias c1) k = Js.Own k ∧
    ∀ ev, ev = "$keydown" ∨ ev = "$keyup" →
      trigger builtinText (S (S fuel)) self ev
              (Some (mkPayload (FString k))) w1
      = (if Js.inherited k then Throw TypeError
         else Ret (Some (mkPayload (FString k))), w1).
Proof.
  intros Hself Hproto Hwired Hk Hne.
  pose (c1 := remapped c k (mkNewProp k) (SRef l)).
  assert (Hself1 : heap (setHeap (<[self := OController c1]> (heap w)) w) !! self
                   = Some (OController c1))
    by (cbn; apply lookup_insert_eq).
  assert (Hgone : Js.own (buttons c1) k = None)
    by apply JsFacts.own_delete_eq.
  assert (Halias : Js.get (buttonAlias c1) k = Js.Own k).
  { apply JsFacts.get_own. cbn. unfold Js.assignPrimitive.
    destruct (String.eqb_spec k "__proto__"); [done|].
    apply JsFacts.own_put_eq. }
  exists c1; eexists.
  split. { apply remapButton_found; [done|done| by rewrite Hk |done]. }
  split; [exact Hself1|].
  split; [apply JsFacts.delete_put|].
  split; [exact Hgone|].
  split; [exact Halias|].
  intros ev Hev.
  assert (∃ public, listeners (c_on c1) ev = [Private public] ∧
                    listeners (c_on c1) public = [Public public])
    as (public & Hpriv & Hpub).
  { destruct Hwired as (? & ? & ? & ?).
    destruct Hev as [-> | ->]; eexists; split; eassumption. }
  rewrite (trigger_private _ _ _ _ _ _ _ Hself1 Hpriv).
  replace (aliased _ _ _) with (mkPayload (FString k)).
  2:{ unfold aliased. cbn [button propertyKey]. rewrite Halias.
      cbn. by destruct (negb (k =? "")%string). }
  destruct (truthy (FString k)) eqn:Htruthy.
  - destruct (Js.inherited k) eqn:Hin.
    + rewrite (trigger_public_found _ _ _ _ _ public _ (SBuiltin k) Hself1 Hpub);
        [done|done|].
      cbn [button propertyKey]. unfold Js.get. by rewrite Hgone, Hin.
    + apply (trigger_public_dropped _ _ _ _ _ public _ Hself1 Hpub).
      right. cbn [button propertyKey]. by apply JsFacts.get_undefined.
  - rewrite (trigger_public_dropped _ _ _ _ _ public _ Hself1 Hpub)
      by (by left).
    cbn in Htruthy. destruct (String.eqb_spec k ""); [subst; done|done].
Qed.

(** *** The session *)

(** C3. With no main controller, [gamee.controller.trigger] throws
    [No controller present]; once [requestController("OneButton")] has
    returned, a [$keydown] for [button] reaches the Button of that
    controller, which then reports [isDown() = true]. *)
Theorem C3_trigger_needs_controller fuel w ev data :
  mainController w = None →
  Session_trigger builtinText fuel ev data w
    = (Throw (Error "No controller present"), w) ∧
  ∃ c cc b w1 w2,
    requestController "OneButton" None w = (Ret c, w1) ∧
    mainController w1 = Some c ∧
    Session_trigger builtinText (S (S (S fuel))) "$keydown"
                    (Some (mkPayload (FString "button"))) w1
      = (Ret (Some (mkPayload (FString "button"))), w2) ∧
    heap w2 !! c = Some (OController cc) ∧
    Js.get (buttons cc) "button" = Js.Own (SRef b) ∧
    fired w2 = fired w1 ++ [(b, "keydown")] ∧
    isDown b w2 = (Ret true, w2).
Proof.
  intros Hnone. split.
  - unfold Session_trigger, bind, world. by rewrite Hnone.
  - eexists _, _, _, _, _.
    split; [run; reflexivity|].
    split; [reflexivity|].
    split; [run; reflexivity|].
    split; [run; reflexivity|].
    split; [reflexivity|].
    split; [reflexivity|].
    run. reflexivity.
Qed.

(** *** The main controller *)







(** A type that [createController] refuses is refused by
    [requestController]: the host is told nothing and the main
    controller stays. *)
Lemma requestController_throws type opts w e w' :
  createController type opts w = (Throw e, w') →
  requestController type opts w = (Throw e, w') ∧ quiet w w'.
Proof.
  intros Hthrow. split.
  - unfold requestController, bind at 1. by rewrite Hthrow.
  - pose proof (createController_quiet type opts w) as Hq.
    by rewrite Hthrow in Hq.
Qed.



(** *** Names that every object inherits *)

Lemma createController_unsupported type opts w :
  Js.get controllerTypes type = Js.Undefined →
  createController type opts w
  = (Throw (Error (String.append "Unsupported controller type, " type)), w).
Proof. intros H. unfold createController. by rewrite H. Qed.

Lemma requestController_unsupported type opts w :
  Js.get controllerTypes type = Js.Undefined →
  requestController type opts w
  = (Throw (Error (String.append "Unsupported controller type, " type)), w).
Proof.
  intros H. unfold requestController, bind.
  by rewrite createController_unsupported.
Qed.

Example bogus_unsupported w :
  createController "Bogus" None w
  = (Throw (Error "Unsupported controller type, Bogus"), w).
Proof. reflexivity. Qed.

(** C5 fails on the code.  [constructor] is no identifier of the
    catalog, yet [createController("constructor")] throws nothing:
    [controllerTypes["constructor"]] is [Object], and the call is
    [new Object()]: it returns a new plain object. *)
Theorem C5_constructor_is_not_rejected w :
  Js.own controllerTypes "constructor" = None ∧
  createController "constructor" None w = alloc OPlain w ∧
  ∃ l w', createController "constructor" None w = (Ret l, w') ∧
          heap w' !! l = Some OPlain.
Proof.
  split; [reflexivity|]. split; [reflexivity|].
  eexists _, _. split; [run; reflexivity|]. cbn. apply lookup_insert_eq.
Qed.

(** C8 fails on the code.  A public [keydown] whose [button] is
    [constructor], which names no Button of a [OneButton] controller,
    is not dropped: [buttons["constructor"]] is [Object], and calling
    its [trigger] throws. *)
Theorem C8_inherited_name_throws fuel w :
  ∃ c w1,
    createController "OneButton" None w = (Ret c, w1) ∧
    layout w1 c = Some [("button", 32)] ∧
    trigger builtinText (S fuel) c "keydown"
            (Some (mkPayload (FString "constructor"))) w1
    = (Throw TypeError, w1).
Proof.
  eexists _, _.
  split; [run; reflexivity|].
  split; [unfold layout; run; reflexivity|].
  run. reflexivity.
Qed.

(** C9 fails on the code.  The Button of a [OneButton] controller is
    renamed [valueOf] and then remapped to that same name: it is gone
    from [buttons] and [valueOf] is its own alias, yet the host's
    [$keydown] and [$keyup] for [valueOf] are not dropped.  The public
    listener finds [Object.prototype.valueOf] under the name, and
    calling its [trigger] throws. *)
Theorem C9_same_name_inherited_throws fuel w :
  ∃ c w1 w2 w3 c3,
    createController "OneButton" None w = (Ret c, w1) ∧
    remapButton c "button" (mkNewProp "valueOf") w1 = (Ret tt, w2) ∧
    layout w2 c = Some [("valueOf", 32)] ∧
    remapButton c "valueOf" (mkNewProp "valueOf") w2 = (Ret tt, w3) ∧
    heap w3 !! c = Some (OController c3) ∧
    buttons c3 = [] ∧
    Js.own (buttonAlias c3) "valueOf" = Some "valueOf" ∧
    ∀ ev, ev = "$keydown" ∨ ev = "$keyup" →
      trigger builtinText (S (S fuel)) c ev
              (Some (mkPayload (FString "valueOf"))) w3
      = (Throw TypeError, w3).
Proof.
  eexists _, _, _, _, _.
  split; [run; reflexivity|].
  split; [run; reflexivity|].
  split; [unfold layout; run; reflexivity|].
  split; [run; reflexivity|].
  split; [cbn; apply lookup_insert_eq|].
  split; [reflexivity|].
  split; [reflexivity|].
  intros ev [-> | ->]; run; reflexivity.
Qed.

(** C10 fails on the code.  [requestController("constructor")] does not
    throw: the host is told, the main controller becomes a plain object,
    and a later [trigger] throws a [TypeError] where it threw
    [No controller present] before. *)
Theorem C10_request_constructor_changes_session fuel w ev data :
  Js.own controllerTypes "constructor" = None ∧
  ∃ l w',
    requestController "constructor" None w = (Ret l, w') ∧
    heap w' !! l = Some OPlain ∧
    gameeNative w'
      = gameeNative w ++ [NativeRequestController "constructor"] ∧
    mainController w' = Some l ∧
    Session_trigger builtinText (S fuel) ev data w' = (Throw TypeError, w') ∧
    Session_trigger builtinText (S fuel) ev data init
    = (Throw (Error "No controller present"), init).
Proof.
  split; [reflexivity|]. eexists _, _.
  split; [run; reflexivity|].
  split; [cbn; apply lookup_insert_eq|].
  split; [reflexivity|].
  split; [reflexivity|].
  split; [run; reflexivity|reflexivity].
Qed.

(** C1 fails on the code.  On a [FourButtons] controller made with the
    keyboard enabled and [left] remapped to [throttle], the physical
    key 37 of that Button is accepted (its default is prevented) and
    then lost: the listener triggers the public [keydown] for the
    Button's own [key], [left], which [buttons] no longer holds.  The
    host's [$keydown] for [left] does reach the Button, and so does the
    key 38 of [up], which was not remapped. *)
Theorem C1_keyboard_misses_remapped_button fuel :
  let opts := Opts.mk true (Some [("left", mkNewProp "throttle")]) in
  ∃ c w1 w2 w3,
    createController "FourButtons" (Some opts) init = (Ret c, w1) ∧
    layout w1 c
      = Some [("up", 38); ("right", 39); ("A", 32); ("throttle", 37)] ∧
    windowKeydown builtinText (S fuel) 37 w1 = (Ret tt, w2) ∧
    defaultPrevented w2 = [37] ∧
    fired w2 = [] ∧
    heap w2 = heap w1 ∧
    trigger builtinText (S (S (S fuel))) c "$keydown"
            (Some (mkPayload (FString "left"))) w1
      = (Ret (Some (mkPayload (FString "throttle"))), w3) ∧
    fired w3 = [(2%nat, "keydown")] ∧
    layout w3 c = layout w1 c ∧
    fired (windowKeydown builtinText (S (S fuel)) 38 w1).2
      = [(1%nat, "keydown")].
Proof.
  eexists _, _, _, _.
  split; [vm_compute; reflexivity|].
  split; [vm_compute; reflexivity|].
  split; [run; reflexivity|].
  split; [reflexivity|].
  split; [reflexivity|].
  split; [reflexivity|].
  split; [run; reflexivity|].
  split; [reflexivity|].
  split; [vm_compute; reflexivity|].
  run. reflexivity.
Qed.

(** *** Button *)

(** C7. A Button just built reports [isDown() = true]; after a [keyup]
    is triggered on it, [false]; after a [keydown], [true] again. *)
Theorem C7_button_isDown fuel w k code data :
  ∃ b w1 w2 w3,
    newButton k code w = (Ret b, w1) ∧
    isDown b w1 = (Ret true, w1) ∧
    trigger builtinText (S fuel) b "keyup" data w1 = (Ret data, w2) ∧
    isDown b w2 = (Ret false, w2) ∧
    trigger builtinText (S fuel) b "keydown" data w2 = (Ret data, w3) ∧
    isDown b w3 = (Ret true, w3).
Proof.
  eexists _, _, _, _.
  split; [reflexivity|].
  split; [run; reflexivity|].
  split; [run; reflexivity|].
  split; [run; reflexivity|].
  split; [run; reflexivity|].
  run; reflexivity.
Qed.

(** *** The catalog *)

Lemma catalog_cases {A} (o : Js.Object A) (type : string) (x : A)
    (P : string → A → Prop) :
  Forall (λ kv, P kv.1 kv.2) o → Js.own o type = Some x → P type x.
Proof.
  induction 1 as [|[k v] o Hk _ IH]; cbn; [done|].
  destruct (String.eqb_spec k type) as [->|_]; [|done].
  by intros [= ->].
Qed.

(** C4. For every identifier of the catalog, [createController(type)]
    returns a controller whose buttons are those of the table, with the
    key codes of the table; [Touch] has none.  The identifiers of the
    table are those of [controllerTypes]. *)
Theorem C4_create_matches_catalog w type expected :
  Js.own catalog type = Some expected →
  catalog.*1 = controllerTypes.*1 ∧
  ∃ l w', createController type None w = (Ret l, w') ∧
          layout w' l = Some expected.
Proof.
  intros Hin. split; [reflexivity|]. revert Hin.
  apply (catalog_cases catalog type expected
           (λ type expected,
              ∃ l w', createController type None w = (Ret l, w') ∧
                      layout w' l = Some expected)).
  unfold catalog. repeat apply Forall_cons_2; try apply Forall_nil_2;
    cbn [fst snd]; eexists _, _;
    (split;
     [ run; reflexivity
     | unfold layout; run; reflexivity ]).
Qed.

End Properties.

(** ** The theorems at work *)

(** A [TwoButtons] controller, remapped. *)
Lemma C2_remap_left_to_throttle_witness :
  let w := (createController "TwoButtons" None init).2 in
  ∃ c b,
    heap w !! 0%nat = Some (OController c) ∧
    proto c = ControllerPrototype ∧
    wired c ∧
    Js.get (buttons c) "left" = Js.Own (SRef 1%nat) ∧
    heap w !! 1%nat = Some (OButton b) ∧
    b_on b = Button_on ∧
    ∃ c1 w1 w2,
      remapButton 0%nat "left" (mkNewProp "throttle") w = (Ret tt, w1) ∧
      heap w1 !! 0%nat = Some (OController c1) ∧
      Js.get (buttons c1) "left" = Js.Undefined ∧
      Js.get (buttons c1) "throttle" = Js.Own (SRef 1%nat) ∧
      Js.get (buttonAlias c1) "left" = Js.Own "throttle" ∧
      trigger v8 3 0%nat "$keydown" (Some (mkPayload (FString "left"))) w1
        = (Ret (Some (mkPayload (FString "throttle"))), w2) ∧
      fired w2 = fired w1 ++ [(1%nat, "keydown")] ∧
      isDown 1%nat w2 = (Ret true, w2).
Proof.
  cbv zeta. eexists _, _.
  split; [vm_compute; reflexivity|].
  split; [reflexivity|].
  split; [repeat split|].
  split; [reflexivity|].
  split; [vm_compute; reflexivity|].
  split; [reflexivity|].
  eapply (C2_remap_left_to_throttle v8 0);
    first [ vm_compute; reflexivity | repeat split ].
Defined.

(** The [FiveButtons] row of the catalog. *)
Lemma C4_create_matches_catalog_witness :
  Js.own catalog "FiveButtons"
    = Some [("up", 38); ("left", 37); ("right", 39); ("down", 40); ("A", 32)] ∧
  catalog.*1 = controllerTypes.*1 ∧
  ∃ l w', createController "FiveButtons" None init = (Ret l, w') ∧
          layout w' l
          = Some [("up", 38); ("left", 37); ("right", 39); ("down", 40);
                  ("A", 32)].
Proof.
  split; [reflexivity|].
  apply (C4_create_matches_catalog init "FiveButtons"). reflexivity.
Defined.

(** A [OneButton] controller whose Button is remapped to [button]. *)
Lemma X22_remap_to_same_name_witness :
  let w := (createController "OneButton" None init).2 in
  ∃ c,
    heap w !! 0%nat = Some (OController c) ∧
    proto c = ControllerPrototype ∧
    wired c ∧
    Js.get (buttons c) "button" = Js.Own (SRef 1%nat) ∧
    "button" ≠ "__proto__" ∧
    ∃ c1 w1,
      remapButton 0%nat "button" (mkNewProp "button") w = (Ret tt, w1) ∧
      heap w1 !! 0%nat = Some (OController c1) ∧
      buttons c1 = Js.delete (buttons c) "button" ∧
      Js.own (buttons c1) "button" = None ∧
      Js.get (buttonAlias c1) "button" = Js.Own "button" ∧
      ∀ ev, ev = "$keydown" ∨ ev = "$keyup" →
        trigger v8 2 0%nat ev (Some (mkPayload (FString "button"))) w1
        = (if Js.inherited "button" then Throw TypeError
           else Ret (Some (mkPayload (FString "button"))), w1).
Proof.
  cbv zeta. eexists.
  split; [vm_compute; reflexivity|].
  split; [reflexivity|].
  split; [repeat split|].
  split; [reflexivity|].
  split; [discriminate|].
  eapply (X22_remap_to_same_name v8 0);
    first [ vm_compute; reflexivity | discriminate | repeat split ].
Defined.

(** The session before and after its first request. *)
Lemma C3_trigger_needs_controller_witness :
  mainController init = None ∧
  Session_trigger v8 0 "$keydown" (Some (mkPayload (FString "button"))) init
    = (Throw (Error "No controller present"), init) ∧
  ∃ c cc b w1 w2,
    requestController "OneButton" None init = (Ret c, w1) ∧
    mainController w1 = Some c ∧
    Session_trigger v8 3 "$keydown" (Some (mkPayload (FString "button"))) w1
      = (Ret (Some (mkPayload (FString "button"))), w2) ∧
    heap w2 !! c = Some (OController cc) ∧
    Js.get (buttons cc) "button" = Js.Own (SRef b) ∧
    fired w2 = fired w1 ++ [(b, "keydown")] ∧
    isDown b w2 = (Ret true, w2).
Proof.
  split; [reflexivity|].
  apply (C3_trigger_needs_controller v8 0 init). reflexivity.
Defined.


(** * Further properties *)

Module AliasFacts.

Lemma own_assignPrimitive_eq {V} (o : Js.Object V) k v :
  k ≠ "__proto__" → Js.own (Js.assignPrimitive o k v) k = Some v.
Proof.
  intros Hk. unfold Js.assignPrimitive.
  destruct (String.eqb_spec k "__proto__"); [done|].
  apply JsFacts.own_put_eq.
Qed.

Lemma own_assignPrimitive_ne {V} (o : Js.Object V) k k' v :
  k ≠ k' → Js.own (Js.assignPrimitive o k v) k' = Js.own o k'.
Proof.
  intros Hk. unfold Js.assignPrimitive.
  destruct (String.eqb_spec k "__proto__"); [done|].
  by apply JsFacts.own_put_ne.
Qed.

Lemma truthy_string s : s ≠ "" → truthy (FString s) = true.
Proof. intros Hs. cbn. by destruct (String.eqb_spec s ""). Qed.

End AliasFacts.

Section Routing.

Variable builtinText : string → string.

Lemma wired_listeners c down :
  wired c →
  listeners (c_on c) (privateEvent down) = [Private (keyEvent down)] ∧
  listeners (c_on c) (keyEvent down) = [Public (keyEvent down)].
Proof. intros (? & ? & ? & ?). by destruct down. Qed.

(** A public key event that names a Button of the controller is that
    Button's event. *)
Lemma public_reaches fuel w self c l b n down :
  heap w !! self = Some (OController c) →
  wired c →
  n ≠ "" →
  Js.get (buttons c) n = Js.Own (SRef l) →
  heap w !! l = Some (OButton b) →
  b_on b = Button_on →
  trigger builtinText (S (S fuel)) self (keyEvent down)
          (Some (mkPayload (FString n))) w
  = (Ret (Some (mkPayload (FString n))), pressed l b down w).
Proof.
  intros Hself Hwired Hn Hfound Hl Hon.
  destruct (wired_listeners c down Hwired) as [_ Hpub].
  rewrite (trigger_public_found _ _ _ _ _ _ (keyEvent down) _ (SRef l)
             Hself Hpub);
    [|by apply AliasFacts.truthy_string|cbn [button propertyKey]; by rewrite Hfound].
  unfold callTrigger, bind.
  by rewrite (trigger_button _ fuel _ l b down None Hl Hon).
Qed.

(** A private key event is the public one for the aliased name. *)
Lemma private_reaches fuel w self c l b n n' down :
  heap w !! self = Some (OController c) →
  wired c →
  aliased builtinText c (mkPayload (FString n)) = mkPayload (FString n') →
  n' ≠ "" →
  Js.get (buttons c) n' = Js.Own (SRef l) →
  heap w !! l = Some (OButton b) →
  b_on b = Button_on →
  trigger builtinText (S (S (S fuel))) self (privateEvent down)
          (Some (mkPayload (FString n))) w
  = (Ret (Some (mkPayload (FString n'))), pressed l b down w).
Proof.
  intros Hself Hwired Halias Hn Hfound Hl Hon.
  destruct (wired_listeners c down Hwired) as [Hpriv _].
  rewrite (trigger_private _ _ _ _ _ _ _ _ Hself Hpriv), Halias.
  by apply (public_reaches fuel w self c l b n' down).
Qed.

(** A private key event whose aliased name is falsy or names nothing
    is dropped. *)
Lemma private_dropped fuel w self c n d' down :
  heap w !! self = Some (OController c) →
  wired c →
  aliased builtinText c (mkPayload n) = d' →
  truthy (button d') = false ∨
  Js.get (buttons c) (propertyKey builtinText (button d')) = Js.Undefined →
  trigger builtinText (S (S fuel)) self (privateEvent down)
          (Some (mkPayload n)) w
  = (Ret (Some d'), w).
Proof.
  intros Hself Hwired Halias Hdrop.
  destruct (wired_listeners c down Hwired) as [Hpriv Hpub].
  rewrite (trigger_private _ _ _ _ _ _ _ _ Hself Hpriv), Halias.
  by apply (trigger_public_dropped _ _ _ _ c _ (keyEvent down)).
Qed.

Lemma aliased_own c n n' :
  n ≠ "" → n' ≠ "" →
  Js.own (buttonAlias c) n = Some n' →
  aliased builtinText c (mkPayload (FString n)) = mkPayload (FString n').
Proof.
  intros Hn Hn' Hown. unfold aliased. cbn [button propertyKey].
  rewrite (proj2 (JsFacts.get_own _ _ _) Hown). cbn [aliasField].
  by rewrite !AliasFacts.truthy_string.
Qed.

Lemma aliased_none c n :
  Js.get (buttonAlias c) n = Js.Undefined →
  aliased builtinText c (mkPayload (FString n)) = mkPayload (FString n).
Proof.
  intros Hnone. unfold aliased. cbn [button propertyKey]. rewrite Hnone.
  cbn. by rewrite andb_false_r.
Qed.

(** What [remapButton] does to a controller that holds a Button under
    [oldName]. *)
Lemma remapButton_moves fuel w self c l b oldName newName :
  heap w !! self = Some (OController c) →
  proto c = ControllerPrototype →
  wired c →
  Js.get (buttons c) oldName = Js.Own (SRef l) →
  heap w !! l = Some (OButton b) →
  b_on b = Button_on →
  oldName ≠ newName →
  oldName ≠ "" → oldName ≠ "__proto__" →
  newName ≠ "" → newName ≠ "__proto__" →
  ∃ c1 w1,
    remapButton self oldName (mkNewProp newName) w = (Ret tt, w1) ∧
    heap w1 !! self = Some (OController c1) ∧
    (∀ l', l' ≠ self → heap w1 !! l' = heap w !! l') ∧
    Js.own (buttons c1) oldName = None ∧
    Js.own (buttons c1) newName = Some (SRef l) ∧
    (∀ k, k ≠ oldName → k ≠ newName →
          Js.own (buttons c1) k = Js.own (buttons c) k) ∧
    Js.own (buttonAlias c1) oldName = Some newName ∧
    (∀ k, k ≠ oldName →
          Js.own (buttonAlias c1) k = Js.own (buttonAlias c) k) ∧
    ∀ down,
      trigger builtinText (S (S (S fuel))) self (privateEvent down)
              (Some (mkPayload (FString oldName))) w1
      = (Ret (Some (mkPayload (FString newName))), pressed l b down w1).
Proof.
  intros Hself Hproto Hwired Hold Hl Hon Hne Hold0 Holdp Hnew0 Hnewp.
  assert (Hsl : self ≠ l) by (intros ->; rewrite Hself in Hl; discriminate).
  pose (c1 := remapped c oldName (mkNewProp newName) (SRef l)).
  exists c1; eexists.
  split. { apply remapButton_found; [done|done|by rewrite Hold|done]. }
  assert (Hself1 : heap (setHeap (<[self := OController c1]> (heap w)) w) !! self
                   = Some (OController c1))
    by (cbn; apply lookup_insert_eq).
  assert (Hnew : Js.own (buttons c1) newName = Some (SRef l)).
  { cbn. rewrite JsFacts.own_delete_ne by done. apply JsFacts.own_put_eq. }
  assert (Halias : Js.own (buttonAlias c1) oldName = Some newName)
    by (by apply AliasFacts.own_assignPrimitive_eq).
  split; [exact Hself1|].
  split. { intros l' Hl'. cbn. by rewrite lookup_insert_ne. }
  split; [apply JsFacts.own_delete_eq|].
  split; [exact Hnew|].
  split.
  { intros k Hk1 Hk2. cbn. rewrite JsFacts.own_delete_ne by done.
    by apply JsFacts.own_put_ne. }
  split; [exact Halias|].
  split. { intros k Hk. by apply AliasFacts.own_assignPrimitive_ne. }
  intros down.
  apply (private_reaches fuel _ self c1 l b oldName newName down);
    [done|done|by apply aliased_own|done|by apply JsFacts.get_own| |done].
  cbn. by rewrite lookup_insert_ne.
Qed.


End Routing.

Module ForInFacts.
Import Js.

Lemma indexed_named {V} (o : Object V) : (indexed o).*2 ++ named o ≡ₚ o.
Proof.
  unfold indexed, named. induction o as [|kv o IH]; [done|]. cbn.
  destruct (arrayIndex kv.1); cbn.
  - by rewrite IH.
  - by rewrite <- Permutation_middle, IH.
Qed.

(** [for (k in o)] visits every own property once. *)
Lemma forIn_Permutation {V} (o : Object V) : forIn o ≡ₚ o.
Proof.
  unfold forIn. etrans; [|apply indexed_named].
  apply Permutation_app; [|done].
  apply fmap_Permutation, merge_sort_Permutation.
Qed.

Lemma own_None {V} (o : Object V) k : k ∉ o.*1 → own o k = None.
Proof.
  induction o as [|[k' v] o IH]; [done|]. cbn.
  intros Hk. apply not_elem_of_cons in Hk as [Hne Hk].
  destruct (String.eqb_spec k' k); [congruence|]. by apply IH.
Qed.

End ForInFacts.

Lemma remapButton_unknown w self c oldName newProp :
  heap w !! self = Some (OController c) →
  proto c = ControllerPrototype →
  Js.get (buttons c) oldName = Js.Undefined →
  remapButton self oldName newProp w = (Ret tt, w).
Proof.
  intros Hself Hproto Hnone. unfold remapButton, method.
  by rewrite (bind_load _ _ _ _ Hself), Hproto, Hnone.
Qed.

Lemma remap_all_unknown w self c kvs :
  heap w !! self = Some (OController c) →
  proto c = ControllerPrototype →
  Forall (λ kv : string * NewProp, Js.get (buttons c) kv.1 = Js.Undefined) kvs →
  each (λ kv, remapButton self kv.1 kv.2) kvs w = (Ret tt, w).
Proof.
  intros Hself Hproto. induction 1 as [|kv kvs Hkv _ IH]; [done|].
  cbn. unfold bind. by rewrite (remapButton_unknown _ _ c).
Qed.

Lemma catalog_rows (P : string → list (string * Z) → Prop) :
  P "OneButton" [("button", 32)] →
  P "TwoButtons" [("left", 37); ("right", 39)] →
  P "FourButtons" [("up", 38); ("left", 37); ("right", 39); ("A", 32)] →
  P "FiveButtons"
    [("up", 38); ("left", 37); ("right", 39); ("down", 40); ("A", 32)] →
  P "SixButtons"
    [("up", 38); ("left", 37); ("right", 39); ("down", 40); ("A", 32);
     ("B", 17)] →
  P "Touch" [] →
  ∀ type layout, Js.own catalog type = Some layout → P type layout.
Proof.
  intros H1 H2 H4 H5 H6 HT type layout. unfold catalog. cbn [Js.own].
  repeat match goal with
         | |- context [String.eqb ?a type] =>
             destruct (String.eqb_spec a type) as [Heq|_];
             [subst type; intros [= <-]; assumption|]
         end.
  discriminate.
Qed.

(** What [new k()] leaves for a layout of the catalog: a controller at
    the location that was free, with the subscriptions of
    [Controller], no alias, and one new Button for each entry of the
    layout; nothing that was there before changes. *)
Lemma construct_spec type layout w :
  Js.own catalog type = Some layout →
  type ≠ "Touch" →
  ∃ k c w1,
    Js.get controllerTypes type = Js.Own k ∧
    construct k w = (Ret (next w), w1) ∧
    heap w1 !! next w = Some (OController c) ∧
    proto c = ControllerPrototype ∧
    c_on c = Controller_on ∧
    buttonAlias c = [] ∧
    (buttons c).*1 = layout.*1 ∧
    Forall (λ nc, ∃ b, holds w1 c nc.1 nc.2 b) layout ∧
    (∀ l, (l < next w)%nat → heap w1 !! l = heap w !! l) ∧
    mainController w1 = mainController w ∧
    gameeNative w1 = gameeNative w ∧
    defaultPrevented w1 = defaultPrevented w ∧
    keydownListeners w1 = keydownListeners w ∧
    keyupListeners w1 = keyupListeners w ∧
    fired w1 = fired w.
Proof.
  intros Hrow. pattern type, layout. revert type layout Hrow.
  apply catalog_rows; intros Htouch; [..|done].
  all: eexists _, _, _; split; [reflexivity|];
    split; [run; reflexivity|];
    split; [run; reflexivity|];
    do 4 (split; [reflexivity|]);
    split;
    [ repeat (apply Forall_cons_2;
              [eexists; split; [reflexivity|run; reflexivity]|]);
      apply Forall_nil_2
    | split; [intros l Hl; cbn; by rewrite !lookup_insert_ne by lia|];
      repeat split ].
Qed.

Lemma bind_Ret {A B} (m : M A) (k : A → M B) w a w' :
  m w = (Ret a, w') → bind m k w = k a w'.
Proof. intros H. unfold bind. by rewrite H. Qed.

Lemma enableKeyboard_listening w self c :
  heap w !! self = Some (OController c) →
  proto c = ControllerPrototype →
  enableKeyboard self w = (Ret tt, listening self c w).
Proof.
  intros Hself Hproto. unfold enableKeyboard, method.
  by rewrite (bind_load _ _ _ _ Hself), Hproto.
Qed.

Lemma unknown_to_layout (bs : list (string * NewProp)) (names : list string)
    (buttons : Js.Object Slot) :
  buttons.*1 = names →
  Forall (λ kv : string * NewProp,
            (kv.1 ∉ names) ∧ Js.inherited kv.1 = false) bs →
  Forall (λ kv : string * NewProp, Js.get buttons kv.1 = Js.Undefined)
         (Js.forIn bs).
Proof.
  intros <- Hbs. rewrite ForInFacts.forIn_Permutation.
  eapply Forall_impl; [exact Hbs|]. intros kv [Hout Hin].
  apply JsFacts.get_undefined. split; [by apply ForInFacts.own_None|done].
Qed.

(** X2. Entries of the [buttons] option that name no button of the
    layout (and nothing that every object inherits) are passed over in
    silence: the controller comes out as without them. *)
Theorem X2_unknown_remaps_ignored w type layout kb bs :
  Js.own catalog type = Some layout →
  type ≠ "Touch" →
  Forall (λ kv : string * NewProp,
            (kv.1 ∉ layout.*1) ∧ Js.inherited kv.1 = false) bs →
  createController type (Some (Opts.mk kb (Some bs))) w
  = createController type (Some (Opts.mk kb None)) w.
Proof.
  intros Hrow Htouch Hbs.
  destruct (construct_spec type layout w Hrow Htouch)
    as (k & c & w1 & Hk & Hnew & Hself & Hproto & _ & _ & Hnames & _).
  unfold createController. rewrite Hk. cbn [default instantiate].
  rewrite !(bind_Ret _ _ _ _ _ Hnew).
  cbn [Opts.enableKeyboard Opts.buttons].
  assert (Hall := unknown_to_layout bs _ _ Hnames Hbs).
  destruct kb.
  - rewrite !(bind_Ret _ _ _ _ _ (enableKeyboard_listening _ _ c Hself Hproto)).
    by rewrite (bind_Ret _ _ _ _ _
                  (remap_all_unknown (listening (next w) c w1) _ c _
                     Hself Hproto Hall)).
  - rewrite !(bind_Ret (ret tt) _ w1 tt w1 eq_refl).
    by rewrite (bind_Ret _ _ _ _ _ (remap_all_unknown _ _ c _ Hself Hproto Hall)).
Qed.

Section Remapping.

Variable builtinText : string → string.

(** X1. [remapButton(oldName, {name: newName})] on a controller that
    holds a Button under [oldName] moves that Button to [newName] and
    records the alias; no other name of [buttons] or [buttonAlias] and
    no other object changes; the host's [$keydown] and [$keyup] for
    [oldName] then are that Button's [keydown] and [keyup]. *)
Theorem X1_remap_moves_button fuel w self c l b oldName newName :
  heap w !! self = Some (OController c) →
  proto c = ControllerPrototype →
  wired c →
  Js.get (buttons c) oldName = Js.Own (SRef l) →
  heap w !! l = Some (OButton b) →
  b_on b = Button_on →
  oldName ≠ newName →
  oldName ≠ "" → oldName ≠ "__proto__" →
  newName ≠ "" → newName ≠ "__proto__" →
  ∃ c1 w1,
    remapButton self oldName (mkNewProp newName) w = (Ret tt, w1) ∧
    heap w1 !! self = Some (OController c1) ∧
    (∀ l', l' ≠ self → heap w1 !! l' = heap w !! l') ∧
    Js.own (buttons c1) oldName = None ∧
    Js.own (buttons c1) newName = Some (SRef l) ∧
    (∀ k, k ≠ oldName → k ≠ newName →
          Js.own (buttons c1) k = Js.own (buttons c) k) ∧
    Js.own (buttonAlias c1) oldName = Some newName ∧
    (∀ k, k ≠ oldName →
          Js.own (buttonAlias c1) k = Js.own (buttonAlias c) k) ∧
    ∀ down,
      trigger builtinText (S (S (S fuel))) self (privateEvent down)
              (Some (mkPayload (FString oldName))) w1
      = (Ret (Some (mkPayload (FString newName))), pressed l b down w1).
Proof. apply remapButton_moves. Qed.

(** X3. [remapButton] takes a name that every object inherits for a
    button.  On a controller set up by [Controller()], where [buttons]
    has no own [k] but [Object.prototype] has, [remapButton(k, {name:
    newName})] with a [newName] that is not [k], not empty and not
    [__proto__] returns and stores the built-in as an own property
    under [newName]; a public [keydown] or [keyup] for [newName] then
    throws a [TypeError] and changes nothing. *)
Theorem X3_remap_inherited_name fuel w self c k newName down :
  heap w !! self = Some (OController c) →
  proto c = ControllerPrototype →
  wired c →
  Js.own (buttons c) k = None →
  Js.inherited k = true →
  k ≠ newName → newName ≠ "" → newName ≠ "__proto__" →
  ∃ c1 w1,
    remapButton self k (mkNewProp newName) w = (Ret tt, w1) ∧
    heap w1 !! self = Some (OController c1) ∧
    Js.own (buttons c1) newName = Some (SBuiltin k) ∧
    trigger builtinText (S fuel) self (keyEvent down)
            (Some (mkPayload (FString newName))) w1
    = (Throw TypeError, w1).
Proof.
  intros Hself Hproto Hwired Hown Hin Hne Hnew0 Hnewp.
  pose (c1 := remapped c k (mkNewProp newName) (SBuiltin k)).
  assert (Hself1 : heap (setHeap (<[self := OController c1]> (heap w)) w) !! self
                   = Some (OController c1))
    by (cbn; apply lookup_insert_eq).
  assert (Hnew : Js.own (buttons c1) newName = Some (SBuiltin k)).
  { cbn. rewrite JsFacts.own_delete_ne by done. apply JsFacts.own_put_eq. }
  exists c1; eexists.
  split.
  { apply remapButton_found; [done|done| |done].
    unfold Js.get. by rewrite Hown, Hin. }
  split; [exact Hself1|]. split; [exact Hnew|].
  destruct (wired_listeners c1 down Hwired) as [_ Hpub].
  rewrite (trigger_public_found _ _ _ _ c1 _ (keyEvent down) _ (SBuiltin k)
             Hself1 Hpub);
    [done|by apply AliasFacts.truthy_string|].
  cbn [button propertyKey]. by rewrite (proj2 (JsFacts.get_own _ _ _) Hnew).
Qed.

(** X4. Aliases are not followed.  Let a controller set up by
    [Controller()] hold a Button, as [Button()] built it, as an own
    property under [n1]; let [n1], [n2] and [n3] be three different
    names, none of them empty or [__proto__], and [n2] no name of
    [Object.prototype].  After [n1] is remapped to [n2] and [n2] to
    [n3], the host's [$keydown] and [$keyup] for [n1] are rewritten to
    [n2], which names nothing any more, and are dropped with nothing
    changed; its events for [n2] are rewritten to [n3] and are the
    Button's [keydown] and [keyup]. *)
Theorem X4_remap_chain_loses_first_name fuel w self c l b n1 n2 n3 down :
  heap w !! self = Some (OController c) →
  proto c = ControllerPrototype →
  wired c →
  Js.get (buttons c) n1 = Js.Own (SRef l) →
  heap w !! l = Some (OButton b) →
  b_on b = Button_on →
  n1 ≠ n2 → n2 ≠ n3 → n1 ≠ n3 →
  n1 ≠ "" → n2 ≠ "" → n3 ≠ "" →
  n1 ≠ "__proto__" → n2 ≠ "__proto__" → n3 ≠ "__proto__" →
  Js.inherited n2 = false →
  ∃ w1 w2,
    remapButton self n1 (mkNewProp n2) w = (Ret tt, w1) ∧
    remapButton self n2 (mkNewProp n3) w1 = (Ret tt, w2) ∧
    trigger builtinText (S (S (S fuel))) self (privateEvent down)
            (Some (mkPayload (FString n1))) w2
      = (Ret (Some (mkPayload (FString n2))), w2) ∧
    trigger builtinText (S (S (S fuel))) self (privateEvent down)
            (Some (mkPayload (FString n2))) w2
      = (Ret (Some (mkPayload (FString n3))), pressed l b down w2).
Proof.
  intros Hself Hproto Hwired Hn1 Hl Hon H12 H23 H13 ? ? ? ? ? ? Hin.
  destruct (remapButton_moves builtinText fuel w self c l b n1 n2)
    as (c1 & w1 & Hr1 & Hself1 & Hframe1 & _ & Hown1 & _ & Halias1 & _);
    [done..|].
  assert (Hsl : self ≠ l) by (intros ->; rewrite Hself in Hl; discriminate).
  assert (Hl1 : heap w1 !! l = Some (OButton b))
    by (by rewrite Hframe1).
  assert (Hproto1 : proto c1 = ControllerPrototype ∧ wired c1).
  { rewrite (remapButton_found w self c n1 (mkNewProp n2) (SRef l)) in Hr1;
      [|done|done|by rewrite Hn1|done].
    injection Hr1 as <-. cbn in Hself1. rewrite lookup_insert_eq in Hself1.
    by injection Hself1 as <-. }
  destruct Hproto1 as [Hproto1 Hwired1].
  destruct (remapButton_moves builtinText fuel w1 self c1 l b n2 n3)
    as (c2 & w2 & Hr2 & Hself2 & Hframe2 & Hgone2 & Hown2 & _ & Halias2
        & Hkeep2 & Hreach);
    [done|done|done|by apply JsFacts.get_own|done..|].
  exists w1, w2. split; [done|]. split; [done|]. split; [|apply Hreach].
  assert (Hw2 : wired c2).
  { rewrite (remapButton_found w1 self c1 n2 (mkNewProp n3) (SRef l)) in Hr2;
      [|done|done|by rewrite (proj2 (JsFacts.get_own _ _ _) Hown1)|done].
    injection Hr2 as <-. cbn in Hself2. rewrite lookup_insert_eq in Hself2.
    by injection Hself2 as <-. }
  apply (private_dropped builtinText (S fuel) w2 self c2); [done|done| |].
  - apply aliased_own; [done|done|]. rewrite Hkeep2 by done. exact Halias1.
  - right. cbn [button propertyKey]. by apply JsFacts.get_undefined.
Qed.

(** X5. A Button remapped to the empty name is out of the host's
    reach.  Let a controller set up by [Controller()] hold an object as
    an own property under [oldName], a name that is not empty, not
    [__proto__] and no name of [Object.prototype].  Then
    [remapButton(oldName, {name: ""})] returns and moves the object
    under the empty name; the alias is falsy, so the host's [$keydown]
    and [$keyup] for [oldName] are not rewritten and find nothing, and
    its events for the empty name are dropped as events without a
    [button]: all of them return their payload and change nothing. *)
Theorem X5_remap_to_empty_name fuel w self c l oldName down :
  heap w !! self = Some (OController c) →
  proto c = ControllerPrototype →
  wired c →
  Js.get (buttons c) oldName = Js.Own (SRef l) →
  oldName ≠ "" → oldName ≠ "__proto__" →
  Js.inherited oldName = false →
  ∃ c1 w1,
    remapButton self oldName (mkNewProp "") w = (Ret tt, w1) ∧
    heap w1 !! self = Some (OController c1) ∧
    Js.own (buttons c1) "" = Some (SRef l) ∧
    Js.own (buttons c1) oldName = None ∧
    ∀ n, n = oldName ∨ n = "" →
      trigger builtinText (S (S fuel)) self (privateEvent down)
              (Some (mkPayload (FString n))) w1
      = (Ret (Some (mkPayload (FString n))), w1).
Proof.
  intros Hself Hproto Hwired Hold Hold0 Holdp Hin.
  pose (c1 := remapped c oldName (mkNewProp "") (SRef l)).
  assert (Hself1 : heap (setHeap (<[self := OController c1]> (heap w)) w) !! self
                   = Some (OController c1))
    by (cbn; apply lookup_insert_eq).
  assert (Hgone : Js.own (buttons c1) oldName = None)
    by apply JsFacts.own_delete_eq.
  exists c1; eexists.
  split. { apply remapButton_found; [done|done|by rewrite Hold|done]. }
  split; [exact Hself1|].
  split. { cbn. rewrite JsFacts.own_delete_ne by done. apply JsFacts.own_put_eq. }
  split; [exact Hgone|].
  intros n [-> | ->].
  - apply (private_dropped builtinText fuel _ self c1); [done|done| |].
    + unfold aliased. cbn [button propertyKey].
      rewrite (proj2 (JsFacts.get_own (buttonAlias c1) oldName "")
                 (AliasFacts.own_assignPrimitive_eq _ _ _ Holdp)).
      cbn. by rewrite andb_false_r.
    + right. cbn [button propertyKey]. by apply JsFacts.get_undefined.
  - apply (private_dropped builtinText fuel _ self c1); [done|done|done|].
    by left.
Qed.

(** X6. On a controller set up by [Controller()], [addButton] of a
    Button, as [Button()] built it, whose [key] is not empty and not
    [__proto__] stores the Button under its [key], in place of whatever
    was there, and changes nothing else; a public [keydown] or [keyup]
    for that name then is the Button's event. *)
Theorem X6_addButton_stores_under_key fuel w self c b bt down :
  heap w !! self = Some (OController c) →
  proto c = ControllerPrototype →
  wired c →
  heap w !! b = Some (OButton bt) →
  b_on bt = Button_on →
  key bt ≠ "" → key bt ≠ "__proto__" →
  ∃ c1 w1,
    addButton self b w = (Ret tt, w1) ∧
    heap w1 !! self = Some (OController c1) ∧
    (∀ l, l ≠ self → heap w1 !! l = heap w !! l) ∧
    Js.own (buttons c1) (key bt) = Some (SRef b) ∧
    (∀ k, k ≠ key bt → Js.own (buttons c1) k = Js.own (buttons c) k) ∧
    buttonAlias c1 = buttonAlias c ∧
    trigger builtinText (S (S fuel)) self (keyEvent down)
            (Some (mkPayload (FString (key bt)))) w1
    = (Ret (Some (mkPayload (FString (key bt)))), pressed b bt down w1).
Proof.
  intros Hself Hproto Hwired Hb Hon Hk0 Hkp.
  assert (Hsb : self ≠ b) by (intros ->; rewrite Hself in Hb; discriminate).
  pose (c1 := setButtons c (Js.put (buttons c) (key bt) (SRef b))).
  assert (Hself1 : heap (setHeap (<[self := OController c1]> (heap w)) w) !! self
                   = Some (OController c1))
    by (cbn; apply lookup_insert_eq).
  assert (Hown : Js.own (buttons c1) (key bt) = Some (SRef b))
    by apply JsFacts.own_put_eq.
  exists c1; eexists.
  split.
  { unfold addButton, method.
    rewrite (bind_load _ _ _ _ Hself), Hproto, (bind_load _ _ _ _ Hb).
    unfold Js.assign. by destruct (String.eqb_spec (key bt) "__proto__"). }
  split; [exact Hself1|].
  split. { intros l Hl. cbn. by rewrite lookup_insert_ne. }
  split; [exact Hown|].
  split. { intros k Hk. by apply JsFacts.own_put_ne. }
  split; [done|].
  apply (public_reaches builtinText fuel _ self c1 b bt);
    [done|done|done|by apply JsFacts.get_own| |done].
  cbn. by rewrite lookup_insert_ne.
Qed.

End Remapping.

(** ** The keyboard *)

Module KeyCodes.

Lemma keyCodesOf_foldl h bs :
  keyCodesOf h bs = foldl (keyCodeStep h) ∅ (Js.forIn bs).
Proof. reflexivity. Qed.

Lemma step_lookup h acc k l code :
  keyCodeStep h acc (k, l) !! code =
  match l with
  | SRef l' =>
      match h !! l' with
      | Some (OButton b) =>
          if (keyCode b =? 0) || negb (keyCode b =? code) then acc !! code
          else Some l'
      | _ => acc !! code
      end
  | SBuiltin _ => acc !! code
  end.
Proof.
  unfold keyCodeStep. cbn. destruct l as [l'|]; [|done].
  destruct (h !! l') as [[b| |]|]; try done.
  destruct (Z.eqb_spec (keyCode b) 0); [done|]. cbn.
  destruct (Z.eqb_spec (keyCode b) code) as [->|?]; cbn.
  - apply lookup_insert_eq.
  - by apply lookup_insert_ne.
Qed.

(** Every entry of the table is a Button of the map, under its own,
    non-zero key code (or was in the table before). *)
Lemma foldl_sound h xs acc code l :
  foldl (keyCodeStep h) acc xs !! code = Some l →
  acc !! code = Some l ∨
  (code ≠ 0 ∧ ∃ k b, (k, SRef l) ∈ xs ∧ h !! l = Some (OButton b) ∧
                     keyCode b = code).
Proof.
  revert acc. induction xs as [|[k s] xs IH]; intros acc; cbn; [by left|].
  intros Hfound. destruct (IH _ Hfound) as [Hstep|(? & k' & b & Hin & ? & ?)].
  - rewrite step_lookup in Hstep. destruct s as [l'|]; [|by left].
    destruct (h !! l') as [[b| |]|] eqn:Hl'; try by left.
    destruct (Z.eqb_spec (keyCode b) 0); [by left|]. cbn in Hstep.
    destruct (Z.eqb_spec (keyCode b) code) as [Hcode|?]; cbn in Hstep;
      [|by left].
    injection Hstep as ->. right. split; [congruence|].
    exists k, b. split; [left|done].
  - right. split; [done|]. exists k', b. split; [by right|done].
Qed.

(** A Button whose non-zero key code no other Button of the map shares
    is in the table under that code. *)
Lemma foldl_complete h xs acc code l :
  code ≠ 0 →
  (∀ k' l' b', (k', SRef l') ∈ xs → h !! l' = Some (OButton b') →
               keyCode b' = code → l' = l) →
  acc !! code = Some l ∨
  (∃ k b, (k, SRef l) ∈ xs ∧ h !! l = Some (OButton b) ∧ keyCode b = code) →
  foldl (keyCodeStep h) acc xs !! code = Some l.
Proof.
  intros Hcode. revert acc.
  induction xs as [|[k s] xs IH]; intros acc Huniq Hfrom; cbn.
  { destruct Hfrom as [?|(? & ? & Hin & _)]; [done|]. by apply elem_of_nil in Hin. }
  apply IH.
  { intros k' l' b' Hin. apply (Huniq k' l' b'). by right. }
  rewrite step_lookup.
  destruct Hfrom as [Hacc|(k0 & b & Hin & Hl & Hb)].
  - left. destruct s as [l'|]; [|done].
    destruct (h !! l') as [[b'| |]|] eqn:Hl'; try done.
    destruct (Z.eqb_spec (keyCode b') 0); [done|]. cbn.
    destruct (Z.eqb_spec (keyCode b') code); cbn; [|done].
    f_equal. apply (Huniq k l' b'); [left|done..].
  - apply elem_of_cons in Hin as [[= <- <-]|Hin].
    + left. rewrite Hl.
      destruct (Z.eqb_spec (keyCode b) 0); [congruence|]. cbn.
      by destruct (Z.eqb_spec (keyCode b) code).
    + right. by exists k0, b.
Qed.

End KeyCodes.

Lemma keyCodesOf_sound h bs code l :
  keyCodesOf h bs !! code = Some l →
  code ≠ 0 ∧
  ∃ k b, (k, SRef l) ∈ bs ∧ h !! l = Some (OButton b) ∧ keyCode b = code.
Proof.
  rewrite KeyCodes.keyCodesOf_foldl. intros Hfound.
  destruct (KeyCodes.foldl_sound _ _ _ _ _ Hfound)
    as [Hempty|(? & k & b & Hin & ? & ?)]; [by rewrite lookup_empty in Hempty|].
  split; [done|]. exists k, b.
  by rewrite ForInFacts.forIn_Permutation in Hin.
Qed.

(** X7. The table [enableKeyboard] builds sends a key code only to a
    Button that the controller holds and whose [keyCode] is that code;
    no Button is listed under the code 0. *)
Theorem X7_keyCodes_sound h bs code l :
  keyCodesOf h bs !! code = Some l →
  code ≠ 0 ∧
  ∃ k b, (k, SRef l) ∈ bs ∧ h !! l = Some (OButton b) ∧ keyCode b = code.
Proof. apply keyCodesOf_sound. Qed.

Module OwnFacts.
Import Js.

Lemma own_elem {V} (o : Object V) k v : own o k = Some v → (k, v) ∈ o.
Proof.
  induction o as [|[k' v'] o IH]; [done|]. cbn.
  destruct (String.eqb_spec k' k) as [->|?].
  - intros [= ->]. left.
  - intros ?. right. by apply IH.
Qed.

Lemma elem_own {V} (o : Object V) k v :
  NoDup o.*1 → (k, v) ∈ o → own o k = Some v.
Proof.
  induction o as [|[k' v'] o IH]; intros Hnd Hin; [by apply elem_of_nil in Hin|].
  cbn in Hnd. apply NoDup_cons in Hnd as [Hk' Hnd]. cbn.
  apply elem_of_cons in Hin as [Heq|Hin].
  - injection Heq as -> ->. by rewrite String.eqb_refl.
  - destruct (String.eqb_spec k' k) as [->|?]; [|by apply IH].
    destruct Hk'. apply list_elem_of_fmap. by exists (k, v).
Qed.

Lemma snd_unique {A B} (l : list (A * B)) a1 a2 b :
  NoDup l.*2 → (a1, b) ∈ l → (a2, b) ∈ l → a1 = a2.
Proof.
  induction l as [|[a' b'] l IH]; intros Hnd H1 H2; [by apply elem_of_nil in H1|].
  cbn in Hnd. apply NoDup_cons in Hnd as [Hb' Hnd].
  apply elem_of_cons in H1 as [Heq1|H1];
    apply elem_of_cons in H2 as [Heq2|H2].
  - congruence.
  - injection Heq1 as -> ->. destruct Hb'.
    apply list_elem_of_fmap. by exists (a2, b').
  - injection Heq2 as -> ->. destruct Hb'.
    apply list_elem_of_fmap. by exists (a1, b').
  - by apply IH.
Qed.

End OwnFacts.

Section Keyboard.

Variable builtinText : string → string.

Lemma keyListener_found fuel code kl w b bt :
  kl_keyCodes kl !! code = Some b →
  heap w !! b = Some (OButton bt) →
  keyListener builtinText fuel code kl w
  = (trigger builtinText fuel (kl_self kl) (kl_event kl)
             (Some (mkPayload (FString (key bt)))) ;; ret tt)%js
      (prevented code w).
Proof.
  intros Hcode Hb. unfold keyListener. rewrite Hcode.
  change (preventDefault code) with (modify (prevented code)).
  unfold bind at 1, modify.
  by rewrite (bind_load b (OButton bt)).
Qed.

Lemma each_one {A} (f : A → M unit) x w : each f [x] w = f x w.
Proof. cbn. unfold bind, ret. by destruct (f x w) as [[[]| | |] ?]. Qed.

(** A physical key event, when the closures of one [enableKeyboard]
    are the only listeners and the code is in their table: the default
    is prevented and the controller gets the public event for the
    [key] of the Button found. *)
Lemma windowKey_found fuel w self c code b bt down w1 :
  keydownListeners w = [] →
  keyupListeners w = [] →
  keyCodesOf (heap w) (buttons c) !! code = Some b →
  heap w1 !! b = Some (OButton bt) →
  keydownListeners w1 = keydownListeners (listening self c w) →
  keyupListeners w1 = keyupListeners (listening self c w) →
  windowKey builtinText down fuel code w1
  = (trigger builtinText fuel self (keyEvent down)
             (Some (mkPayload (FString (key bt)))) ;; ret tt)%js
      (prevented code w1).
Proof.
  intros Hkd Hku Hcode Hb Hkd1 Hku1.
  cbn in Hkd1, Hku1. rewrite Hkd in Hkd1. rewrite Hku in Hku1.
  destruct down; cbn [windowKey keyEvent];
    [unfold windowKeydown|unfold windowKeyup];
    unfold bind at 1, world; [rewrite Hkd1|rewrite Hku1];
    cbn [app]; rewrite each_one;
    by rewrite (keyListener_found _ _ _ _ b bt).
Qed.

(** A physical key event whose code is not in the table does nothing. *)
Lemma windowKey_unknown fuel w self c code down w1 :
  keydownListeners w = [] →
  keyupListeners w = [] →
  keyCodesOf (heap w) (buttons c) !! code = None →
  keydownListeners w1 = keydownListeners (listening self c w) →
  keyupListeners w1 = keyupListeners (listening self c w) →
  windowKey builtinText down fuel code w1 = (Ret tt, w1).
Proof.
  intros Hkd Hku Hcode Hkd1 Hku1.
  cbn in Hkd1, Hku1. rewrite Hkd in Hkd1. rewrite Hku in Hku1.
  destruct down; cbn [windowKey];
    [unfold windowKeydown|unfold windowKeyup];
    unfold bind at 1, world; [rewrite Hkd1|rewrite Hku1];
    cbn [app]; rewrite each_one; unfold keyListener; cbn [kl_keyCodes];
    by rewrite Hcode.
Qed.

Lemma table_has h bs k b bt :
  Js.own bs k = Some (SRef b) →
  h !! b = Some (OButton bt) →
  keyCode bt ≠ 0 →
  (∀ k' l' b', (k', SRef l') ∈ bs → h !! l' = Some (OButton b') →
               keyCode b' = keyCode bt → l' = b) →
  keyCodesOf h bs !! keyCode bt = Some b.
Proof.
  intros Hown Hb Hcode Huniq. rewrite KeyCodes.keyCodesOf_foldl.
  apply KeyCodes.foldl_complete; [done| |].
  - intros k' l' b' Hin. rewrite ForInFacts.forIn_Permutation in Hin. eauto.
  - right. exists k, bt. rewrite ForInFacts.forIn_Permutation.
    split; [by apply OwnFacts.own_elem|done].
Qed.

Lemma keyboard_reaches fuel w self c b bt down :
  heap w !! self = Some (OController c) →
  proto c = ControllerPrototype →
  wired c →
  keydownListeners w = [] →
  keyupListeners w = [] →
  Js.get (buttons c) (key bt) = Js.Own (SRef b) →
  heap w !! b = Some (OButton bt) →
  b_on bt = Button_on →
  key bt ≠ "" →
  keyCode bt ≠ 0 →
  (∀ k' l' b', (k', SRef l') ∈ buttons c → heap w !! l' = Some (OButton b') →
               keyCode b' = keyCode bt → l' = b) →
  ∃ w1,
    enableKeyboard self w = (Ret tt, w1) ∧
    windowKey builtinText down (S (S fuel)) (keyCode bt) w1
    = (Ret tt, pressed b bt down (prevented (keyCode bt) w1)).
Proof.
  intros Hself Hproto Hwired Hkd Hku Hown Hb Hon Hkey Hcode Huniq.
  exists (listening self c w).
  split; [by apply enableKeyboard_listening|].
  rewrite (windowKey_found _ w self c (keyCode bt) b bt down);
    [|done|done| |done..].
  2:{ apply (table_has _ _ (key bt)); [by apply JsFacts.get_own|done..]. }
  unfold bind at 1.
  by rewrite (public_reaches builtinText fuel _ self c b bt (key bt) down).
Qed.

(** X8. Let a controller set up by [Controller()] hold a Button, as
    [Button()] built it, as an own property under the Button's own
    [key], which is not empty, and let no other Button of the
    controller share its key code, which is not 0.  With no keyboard
    listener there before, [enableKeyboard] returns, and from then on
    that key is the Button's event: when it goes down the default is
    prevented and the Button's [keydown] fires, when it goes up the
    default is prevented and its [keyup] fires. *)
Theorem X8_keyboard_reaches_button fuel w self c b bt down :
  heap w !! self = Some (OController c) →
  proto c = ControllerPrototype →
  wired c →
  keydownListeners w = [] →
  keyupListeners w = [] →
  Js.get (buttons c) (key bt) = Js.Own (SRef b) →
  heap w !! b = Some (OButton bt) →
  b_on bt = Button_on →
  key bt ≠ "" →
  keyCode bt ≠ 0 →
  (∀ k' l' b', (k', SRef l') ∈ buttons c → heap w !! l' = Some (OButton b') →
               keyCode b' = keyCode bt → l' = b) →
  ∃ w1,
    enableKeyboard self w = (Ret tt, w1) ∧
    windowKey builtinText down (S (S fuel)) (keyCode bt) w1
    = (Ret tt, pressed b bt down (prevented (keyCode bt) w1)).
Proof. apply keyboard_reaches. Qed.

(** X9. A Button renamed after the keyboard was enabled (the order of
    [createController]) loses its key.  Let a controller set up by
    [Controller()] hold a Button as an own property under the Button's
    own [key], which is no name of [Object.prototype], and let no other
    Button of the controller share its key code, which is not 0; let
    there be no keyboard listener before.  After [enableKeyboard] and
    then [remapButton(key, {name: newName})], for a [newName] other
    than [key] and [__proto__], the Button sits under [newName]; the
    keyboard listener still finds it by key code, prevents the default
    and triggers the public event for the Button's own [key], which
    [buttons] no longer holds, so that no Button event follows and
    nothing else changes. *)
Theorem X9_keyboard_misses_renamed_button fuel w self c b bt newName down :
  heap w !! self = Some (OController c) →
  proto c = ControllerPrototype →
  wired c →
  keydownListeners w = [] →
  keyupListeners w = [] →
  Js.get (buttons c) (key bt) = Js.Own (SRef b) →
  heap w !! b = Some (OButton bt) →
  keyCode bt ≠ 0 →
  (∀ k' l' b', (k', SRef l') ∈ buttons c → heap w !! l' = Some (OButton b') →
               keyCode b' = keyCode bt → l' = b) →
  newName ≠ key bt → newName ≠ "__proto__" →
  Js.inherited (key bt) = false →
  ∃ w1 w2 c2,
    enableKeyboard self w = (Ret tt, w1) ∧
    remapButton self (key bt) (mkNewProp newName) w1 = (Ret tt, w2) ∧
    heap w2 !! self = Some (OController c2) ∧
    Js.own (buttons c2) newName = Some (SRef b) ∧
    windowKey builtinText down (S fuel) (keyCode bt) w2
    = (Ret tt, prevented (keyCode bt) w2).
Proof.
  intros Hself Hproto Hwired Hkd Hku Hown Hb Hcode Huniq Hne Hnewp Hin.
  assert (Hsb : self ≠ b) by (intros ->; rewrite Hself in Hb; discriminate).
  pose (c2 := remapped c (key bt) (mkNewProp newName) (SRef b)).
  exists (listening self c w); eexists; exists c2.
  split; [by apply enableKeyboard_listening|].
  split.
  { apply (remapButton_found (listening self c w) self c);
      [done|done|by rewrite Hown|done]. }
  split; [cbn; apply lookup_insert_eq|].
  split. { cbn. rewrite JsFacts.own_delete_ne by done. apply JsFacts.own_put_eq. }
  rewrite (windowKey_found _ w self c (keyCode bt) b bt down);
    [|done|done| | |done|done].
  - unfold bind at 1.
    rewrite (trigger_public_dropped builtinText fuel _ self c2
               (keyEvent down) (keyEvent down)); [done| | |].
    + cbn. apply lookup_insert_eq.
    + by destruct (wired_listeners c2 down Hwired).
    + right. cbn [button propertyKey]. apply JsFacts.get_undefined.
      split; [apply JsFacts.own_delete_eq|done].
  - apply (table_has _ _ (key bt)); [by apply JsFacts.get_own|done..].
  - cbn. by rewrite lookup_insert_ne.
Qed.

Lemma catalog_wf type layout :
  Js.own catalog type = Some layout →
  NoDup layout.*1 ∧ NoDup layout.*2 ∧
  Forall (λ nc : string * Z,
            nc.1 ≠ "" ∧ nc.2 ≠ 0 ∧ Js.inherited nc.1 = false) layout.
Proof.
  intros Hrow. pattern type, layout. revert type layout Hrow.
  apply catalog_rows;
    (split; [|split]);
    [apply (bool_decide_unpack _); by vm_compute..
    |repeat (apply Forall_cons_2; [done|]); apply Forall_nil_2].
Qed.

(** X10. Every controller of the catalog made with [enableKeyboard]
    answers the keys of its layout: the key code of each of its
    Buttons prevents the default and is that Button's [keydown] when
    it goes down and its [keyup] when it goes up. *)
Theorem X10_catalog_keyboard fuel w type layout name code down :
  Js.own catalog type = Some layout →
  (name, code) ∈ layout →
  keydownListeners w = [] →
  keyupListeners w = [] →
  ∃ l c b w1,
    createController type (Some (Opts.mk true None)) w = (Ret l, w1) ∧
    heap w1 !! l = Some (OController c) ∧
    holds w1 c name code b ∧
    windowKey builtinText down (S (S fuel)) code w1
    = (Ret tt,
       pressed b (mkButton true name code Button_on) down (prevented code w1)).
Proof.
  intros Hrow Hin Hkd Hku.
  assert (Htouch : type ≠ "Touch").
  { intros ->. injection Hrow as <-. by apply elem_of_nil in Hin. }
  destruct (catalog_wf type layout Hrow) as (Hnames & Hcodes & Hwf).
  destruct (construct_spec type layout w Hrow Htouch)
    as (k & c & w0 & Hk & Hnew & Hself & Hproto & Hon & _ & Hbs & Hall
        & _ & _ & _ & _ & Hkd0 & Hku0 & _).
  rewrite Forall_forall in Hall, Hwf.
  destruct (Hall _ Hin) as (b & Hown & Hb). cbn [fst snd] in Hown, Hb.
  destruct (Hwf _ Hin) as (Hname & Hcode & _). cbn [fst snd] in Hname, Hcode.
  destruct (keyboard_reaches fuel w0 (next w) c b
              (mkButton true name code Button_on) down)
    as (w1 & Henable & Hkey);
    [done|done|by (unfold wired; rewrite Hon)|congruence|congruence
    |by apply JsFacts.get_own|done|done|done|done| |].
  { intros k' l' b' Hin' Hl' Hcode'. cbn [keyCode] in Hcode'.
    assert (k' ∈ layout.*1) as (nc & -> & Hnc)%list_elem_of_fmap.
    { rewrite <- Hbs. apply list_elem_of_fmap. by exists (k', SRef l'). }
    destruct (Hall _ Hnc) as (b'' & Hown'' & Hb'').
    rewrite (OwnFacts.elem_own _ _ _ (eq_ind_r NoDup Hnames Hbs) Hin')
      in Hown''.
    injection Hown'' as <-. rewrite Hl' in Hb''. injection Hb'' as ->.
    cbn [keyCode] in Hcode'.
    assert (nc.1 = name) as Hsame
      by (apply (OwnFacts.snd_unique layout _ _ code Hcodes);
          [by rewrite <- Hcode', <- surjective_pairing|done]).
    rewrite Hsame in Hin'.
    apply (OwnFacts.elem_own _ _ _ (eq_ind_r NoDup Hnames Hbs)) in Hin'.
    congruence. }
  exists (next w), c, b, w1.
  split.
  { unfold createController. rewrite Hk. cbn [default instantiate].
    rewrite (bind_Ret _ _ _ _ _ Hnew). cbn [Opts.enableKeyboard Opts.buttons].
    by rewrite (bind_Ret _ _ _ _ _ Henable). }
  rewrite (enableKeyboard_listening _ _ c Hself Hproto) in Henable.
  injection Henable as <-.
  split; [done|]. split; [done|]. exact Hkey.
Qed.

(** X11. A key code that no Button of the controller carries, and the
    key code 0 whatever the Buttons carry, is left to the browser: the
    default is not prevented and no event is triggered. *)
Theorem X11_unmapped_key_ignored fuel w self c code down :
  heap w !! self = Some (OController c) →
  proto c = ControllerPrototype →
  keydownListeners w = [] →
  keyupListeners w = [] →
  code = 0 ∨
  (∀ k l b, (k, SRef l) ∈ buttons c → heap w !! l = Some (OButton b) →
            keyCode b ≠ code) →
  ∃ w1,
    enableKeyboard self w = (Ret tt, w1) ∧
    windowKey builtinText down fuel code w1 = (Ret tt, w1).
Proof.
  intros Hself Hproto Hkd Hku Hnone.
  exists (listening self c w).
  split; [by apply enableKeyboard_listening|].
  apply (windowKey_unknown fuel w self c); [done|done| |done|done].
  destruct (keyCodesOf (heap w) (buttons c) !! code) as [l|] eqn:Hfound;
    [|done].
  apply keyCodesOf_sound in Hfound as (Hcode & k & b & Hin & Hl & Hb).
  destruct Hnone as [->|Hnone]; [done|]. by destruct (Hnone k l b).
Qed.

End Keyboard.

(** ** The factory and the session *)

#[global] Instance untouched_preorder n : PreOrder (untouched n).
Proof.
  split; [done|]. intros x y z Hxy Hyz l Hl. by rewrite Hyz, Hxy.
Qed.

Lemma store_untouched n l o : (n ≤ l)%nat → keeps (untouched n) (store l o).
Proof. intros Hn w l' Hl'. cbn. apply lookup_insert_ne. lia. Qed.

Lemma gamee_keydown_untouched n kl : keeps (untouched n) (gamee_keydown kl).
Proof. done. Qed.

Lemma gamee_keyup_untouched n kl : keeps (untouched n) (gamee_keyup kl).
Proof. done. Qed.

#[global] Hint Resolve gamee_keydown_untouched gamee_keyup_untouched : keeps.
#[global] Hint Extern 1 (keeps (untouched _) (store _ _)) =>
  apply store_untouched; lia : keeps.

Lemma instantiate_untouched found w :
  untouched (next w) w (instantiate found w).2.
Proof.
  destruct found as [[]|n|]; cbn; [..|destruct (n =? "constructor")%string|];
    run; try done; intros l Hl; cbn; by rewrite !lookup_insert_ne by lia.
Qed.

Lemma createController_untouched type opts w :
  untouched (next w) w (createController type opts w).2.
Proof.
  unfold createController.
  destruct (Js.get controllerTypes type) as [k|n|] eqn:Hfound; [| |done].
  all: unfold bind at 1;
    pose proof (instantiate_untouched (Js.get controllerTypes type) w) as Hnew;
    rewrite Hfound in Hnew;
    destruct (instantiate _ w) as [[a| | |] w1] eqn:Hinst; [|done..];
    apply instantiate_returns in Hinst as [-> _];
    etrans; [exact Hnew|];
    match goal with
    | |- untouched _ _ (?m w1).2 =>
        assert (Hk : keeps (untouched (next w)) m)
          by (unfold enableKeyboard, remapButton, method; preserve)
    end;
    apply Hk.
Qed.

(** X12. Building a controller is all [createController] does,
    whatever it answers: it tells the host nothing, leaves the main
    controller, triggers no Button, and changes no object that was
    there before. *)
Theorem X12_createController_builds_only type opts w :
  quiet w (createController type opts w).2 ∧
  untouched (next w) w (createController type opts w).2.
Proof.
  split; [apply createController_quiet|apply createController_untouched].
Qed.


(** ** Events *)

Lemma sameButton_refl o : sameButton o o.
Proof. by destruct o as [[]|]. Qed.

Lemma sameButton_trans o1 o2 o3 :
  sameButton o1 o2 → sameButton o2 o3 → sameButton o1 o3.
Proof.
  destruct o1 as [[b1|c1|]|], o2 as [[b2|c2|]|], o3 as [[b3|c3|]|]; cbn;
    try congruence; try done; intuition congruence.
Qed.

#[global] Instance pressedOnly_preorder : PreOrder pressedOnly.
Proof.
  split.
  - intros w. repeat split. intros l. apply sameButton_refl.
  - intros x y z (? & ? & ? & ? & ? & Hxy) (? & ? & ? & ? & ? & Hyz).
    repeat split; [congruence..|]. intros l.
    by apply (sameButton_trans _ (heap y !! l)).
Qed.

Lemma note_pressedOnly l ev : keeps pressedOnly (note l ev).
Proof. intros w. repeat split. intros l'. apply sameButton_refl. Qed.

Lemma preventDefault_pressedOnly code : keeps pressedOnly (preventDefault code).
Proof. intros w. repeat split. intros l'. apply sameButton_refl. Qed.

Lemma runBHandler_pressedOnly self h : keeps pressedOnly (runBHandler self h).
Proof.
  intros w. destruct h as [p]. unfold runBHandler, bind, load.
  destruct (heap w !! self) as [[b|c|]|] eqn:Hself; cbn;
    try (repeat split; intros l'; apply sameButton_refl).
  repeat split. intros l'. cbn.
  destruct (decide (self = l')) as [<-|?].
  - by rewrite lookup_insert_eq, Hself.
  - rewrite lookup_insert_ne by done. apply sameButton_refl.
Qed.

#[global] Hint Resolve note_pressedOnly preventDefault_pressedOnly
  runBHandler_pressedOnly : keeps.

Section EventFacts.

Variable builtinText : string → string.

Lemma trigger_pressedOnly fuel self ev data :
  keeps pressedOnly (trigger builtinText fuel self ev data).
Proof.
  revert self ev data.
  induction fuel as [|fuel IH]; intros self ev data; cbn; [preserve|].
  apply keeps_bind; [preserve|]. intros [b|c|]; [| |preserve].
  - unfold Button_trigger. preserve.
  - revert data. induction (listeners (c_on c) ev) as [|h hs IHhs];
      intros data; cbn; [preserve|].
    apply keeps_bind; [|done].
    unfold runCHandler, callTrigger. preserve.
Qed.

(** X14. Events change no structure.  Whatever [trigger] is called
    with, on the session or on any object, and whatever key goes down
    or up, afterwards the same objects exist, every controller has the
    [buttons], [buttonAlias] and listeners it had, every Button its
    [key], [keyCode] and listeners, and the main controller, the
    keyboard listeners and what the host was told are the same: only
    [_pressed] can differ. *)
Theorem X14_events_change_pressed_only fuel ev data self code down w :
  pressedOnly w (Session_trigger builtinText fuel ev data w).2 ∧
  pressedOnly w (trigger builtinText fuel self ev data w).2 ∧
  pressedOnly w (windowKey builtinText down fuel code w).2.
Proof.
  pose proof trigger_pressedOnly as Htrigger.
  split; [|split].
  - assert (keeps pressedOnly (Session_trigger builtinText fuel ev data))
      as Hk by (unfold Session_trigger; preserve).
    apply Hk.
  - apply Htrigger.
  - assert (keeps pressedOnly (windowKey builtinText down fuel code))
      as Hk
      by (destruct down; cbn [windowKey];
          unfold windowKeydown, windowKeyup, keyListener; preserve).
    apply Hk.
Qed.

(** X15. [isDown] answers the last event: after any sequence of
    [keydown] and [keyup] triggered on a Button, every one of them was
    fired in order and [isDown()] is [true] if the last one was a
    [keydown], [false] if it was a [keyup], and what it was before if
    the sequence is empty. *)
Theorem X15_isDown_follows_last_event fuel evs : ∀ w l b,
  heap w !! l = Some (OButton b) →
  b_on b = Button_on →
  ∃ w',
    each (λ down, trigger builtinText (S fuel) l (keyEvent down) None ;; ret tt)
         evs w
    = (Ret tt, w') ∧
    fired w' = fired w ++ ((λ down, (l, keyEvent down)) <$> evs) ∧
    isDown l w' = (Ret (default (_pressed b) (last evs)), w').
Proof.
  induction evs as [|down evs IH]; intros w l b Hl Hon.
  - exists w. split; [done|]. split; [by rewrite app_nil_r|].
    unfold isDown. by rewrite (bind_load _ _ _ _ Hl).
  - destruct (IH (pressed l b down w) l
                 (mkButton down (key b) (keyCode b) (b_on b)))
      as (w' & Hrun & Hfired & Hdown); [apply lookup_insert_eq|done|].
    exists w'. split; [|split].
    + cbn [each]. unfold bind at 1 2.
      pose proof (trigger_button builtinText fuel w l b down None Hl Hon)
        as Hstep.
      destruct down; cbn [keyEvent]; rewrite Hstep; exact Hrun.
    + rewrite Hfired. cbn. by rewrite <- app_assoc.
    + rewrite Hdown. cbn [_pressed]. rewrite last_cons.
      by destruct (last evs).
Qed.

(** X16. Every controller of the catalog that [requestController]
    returns takes the host's events for each of its Buttons: a
    [$keydown] or [$keyup] for a name of the layout, sent through
    [gamee.controller.trigger], is that Button's [keydown] or
    [keyup]. *)
Theorem X16_catalog_host_events fuel w type layout name code down :
  Js.own catalog type = Some layout →
  (name, code) ∈ layout →
  ∃ l c b w1,
    requestController type None w = (Ret l, w1) ∧
    heap w1 !! l = Some (OController c) ∧
    holds w1 c name code b ∧
    Session_trigger builtinText (S (S (S fuel))) (privateEvent down)
                    (Some (mkPayload (FString name))) w1
    = (Ret (Some (mkPayload (FString name))),
       pressed b (mkButton true name code Button_on) down w1).
Proof.
  intros Hrow Hin.
  assert (Htouch : type ≠ "Touch").
  { intros ->. injection Hrow as <-. by apply elem_of_nil in Hin. }
  destruct (catalog_wf type layout Hrow) as (_ & _ & Hwf).
  destruct (construct_spec type layout w Hrow Htouch)
    as (k & c & w0 & Hk & Hnew & Hself & Hproto & Hon & Halias & _ & Hall & _).
  rewrite Forall_forall in Hall, Hwf.
  destruct (Hall _ Hin) as (b & Hown & Hb). cbn [fst snd] in Hown, Hb.
  destruct (Hwf _ Hin) as (Hname & _ & Hplain). cbn [fst] in Hname, Hplain.
  eexists (next w), c, b, _.
  split.
  { unfold requestController, createController. rewrite Hk.
    cbn [default instantiate Opts.empty Opts.enableKeyboard Opts.buttons].
    unfold bind at 1 2. rewrite Hnew. reflexivity. }
  split; [exact Hself|]. split; [done|].
  unfold Session_trigger, bind, world. cbn [mainController].
  apply (private_reaches builtinText fuel _ (next w) c b
           (mkButton true name code Button_on) name name down);
    [exact Hself|by (unfold wired; rewrite Hon)| |done
    |by apply JsFacts.get_own|exact Hb|done].
  unfold aliased. cbn [button propertyKey]. rewrite Halias.
  unfold Js.get. cbn [Js.own]. rewrite Hplain. cbn [aliasField truthy].
  by rewrite andb_false_r.
Qed.

End EventFacts.

Section Edges.

Variable builtinText : string → string.

(** X17. A key event needs its payload: [trigger("keydown")], and
    likewise [keyup], [$keydown] and [$keyup], with no data on a
    controller throws a [TypeError] (the listener reads [data.button])
    and changes nothing. *)
Theorem X17_key_event_without_payload_throws fuel w self c down :
  heap w !! self = Some (OController c) →
  wired c →
  trigger builtinText (S fuel) self (keyEvent down) None w
    = (Throw TypeError, w) ∧
  trigger builtinText (S fuel) self (privateEvent down) None w
    = (Throw TypeError, w).
Proof.
  intros Hself Hwired.
  destruct (wired_listeners c down Hwired) as [Hpriv Hpub].
  split; cbn -[listeners]; rewrite (bind_load _ _ _ _ Hself);
    [rewrite Hpub|rewrite Hpriv]; reflexivity.
Qed.

(** X18. A public key event whose [button] is missing, empty, or names
    nothing in [buttons] nor in [Object.prototype] is dropped: the call
    returns, no Button hears of it and nothing changes. *)
Theorem X18_unknown_button_dropped fuel w self c f down :
  heap w !! self = Some (OController c) →
  wired c →
  f = FUndefined ∨ f = FString "" ∨
  (∃ n, f = FString n ∧ Js.own (buttons c) n = None ∧
        Js.inherited n = false) →
  trigger builtinText (S fuel) self (keyEvent down) (Some (mkPayload f)) w
  = (Ret (Some (mkPayload f)), w).
Proof.
  intros Hself Hwired Hf.
  destruct (wired_listeners c down Hwired) as [_ Hpub].
  apply (trigger_public_dropped builtinText fuel w self c _ (keyEvent down));
    [done|done|].
  destruct Hf as [->|[->|(n & -> & Hown & Hin)]]; [by left..|].
  right. cbn [button propertyKey]. by apply JsFacts.get_undefined.
Qed.

(** X19. The touch controller cannot be configured: its prototype does
    not reach [Controller.prototype], so [createController("Touch",
    opts)] throws a [TypeError] as soon as [opts] enables the keyboard
    or remaps a button, and [requestController] then announces nothing
    and leaves the main controller. *)
Theorem X19_touch_options_throw w opts :
  Opts.enableKeyboard opts = true ∨
  (∃ bs, Opts.buttons opts = Some bs ∧ bs ≠ []) →
  ∃ w',
    createController "Touch" (Some opts) w = (Throw TypeError, w') ∧
    requestController "Touch" (Some opts) w = (Throw TypeError, w') ∧
    mainController w' = mainController w ∧
    gameeNative w' = gameeNative w.
Proof.
  intros Hopts.
  assert (∃ w', createController "Touch" (Some opts) w = (Throw TypeError, w'))
    as [w' Hthrow].
  { destruct opts as [kb bs]. cbn in Hopts.
    destruct kb; [eexists; run; reflexivity|].
    destruct Hopts as [?|(bs' & -> & Hne)]; [done|].
    destruct (Js.forIn bs') as [|kv kvs] eqn:Hfor.
    { destruct Hne. apply Permutation_nil_r.
      by rewrite <- (ForInFacts.forIn_Permutation bs'), Hfor. }
    eexists. run. rewrite Hfor. run. reflexivity. }
  exists w'. split; [done|].
  destruct (requestController_throws _ _ _ _ _ Hthrow) as [Hreq Hq].
  split; [done|]. by destruct Hq as (? & ? & _).
Qed.

Lemma listeners_app {H} (c1 c2 : Channel H) ev :
  listeners (c1 ++ c2) ev = listeners c1 ev ++ listeners c2 ev.
Proof. unfold listeners. by rewrite List.filter_app, fmap_app. Qed.

Lemma subscribe_each extra : ∀ w l c,
  heap w !! l = Some (OController c) →
  each (λ eh : string * CHandler, subscribe l eh.1 eh.2) extra w
  = (Ret tt, subscribed l c extra w).
Proof.
  induction extra as [|[ev h] extra IH]; intros w l c Hl.
  - unfold subscribed. rewrite app_nil_r. cbn.
    destruct c, w. unfold setHeap. cbn in *. by rewrite insert_id.
  - cbn [each]. unfold subscribe at 1.
    erewrite bind_Ret; last by (rewrite (bind_load _ _ _ _ Hl); reflexivity).
    rewrite (IH _ l (mkController (proto c) (buttons c) (buttonAlias c)
                                  (on (c_on c) ev h)))
      by (cbn; apply lookup_insert_eq).
    unfold subscribed, setHeap, on. cbn.
    by rewrite insert_insert_eq, <- app_assoc.
Qed.

(** A relay is the event it names, one call deeper. *)
Lemma relay_trigger fuel w l c private public data :
  heap w !! l = Some (OController c) →
  listeners (c_on c) private = [Relay public] →
  trigger builtinText (S fuel) l private data w
  = trigger builtinText fuel l public data w.
Proof.
  intros Hl Hrelay. cbn [trigger].
  rewrite (bind_load _ _ _ _ Hl), Hrelay. cbn. apply bind_ret_r.
Qed.

(** X20. The touch controller has no Button and relays each of the
    five private touch events to its public name.  As
    [createController("Touch")] returns it, the one listener of
    [$touchstart] (and likewise of the four others) is the relay to
    [touchstart], which has no listener yet, so that the private event
    returns with the payload as it came and nothing changed.  After the
    game subscribed listeners of its own, none of them on the private
    name, triggering the private event is triggering the public one
    with the same payload: same answer, same world. *)
Theorem X20_touch_relays fuel w public data extra :
  public ∈ ["touchstart"; "touchend"; "touchmove"; "touchleave";
            "touchcancel"] →
  listeners extra (String.append "$" public) = [] →
  ∃ l c w1,
    createController "Touch" None w = (Ret l, w1) ∧
    heap w1 !! l = Some (OController c) ∧
    buttons c = [] ∧
    listeners (c_on c) (String.append "$" public) = [Relay public] ∧
    listeners (c_on c) public = [] ∧
    trigger builtinText (S (S fuel)) l (String.append "$" public) data w1
      = (Ret data, w1) ∧
    each (λ eh : string * CHandler, subscribe l eh.1 eh.2) extra w1
      = (Ret tt, subscribed l c extra w1) ∧
    trigger builtinText (S fuel) l (String.append "$" public) data
            (subscribed l c extra w1)
      = trigger builtinText fuel l public data (subscribed l c extra w1).
Proof.
  intros Hev Hextra. eexists _, _, _.
  split; [run; reflexivity|].
  split; [cbn; apply lookup_insert_eq|].
  split; [reflexivity|].
  repeat (apply elem_of_cons in Hev as [->|Hev];
    [ match goal with
      | |- context [String.append ?a ?b] =>
          let s := eval vm_compute in (String.append a b) in
          change (String.append a b) with s in *
      end;
      split; [reflexivity|]; split; [reflexivity|];
      split; [run; reflexivity|];
      split; [apply subscribe_each; cbn; apply lookup_insert_eq|];
      eapply relay_trigger;
        [ unfold subscribed, setHeap; cbn [heap]; apply lookup_insert_eq
        | cbn [c_on]; rewrite listeners_app, Hextra; reflexivity ] |]).
  by apply elem_of_nil in Hev.
Qed.

End Edges.

(** ** The errors of the factory *)

Section TypeErrors.

Lemma typeErrorsOnly_ret {A} (a : A) : typeErrorsOnly (ret a).
Proof. by intros w e. Qed.

Lemma typeErrorsOnly_throw {A} : typeErrorsOnly (@throw A TypeError).
Proof. by intros w e [= <-]. Qed.

Lemma typeErrorsOnly_unmodelled {A} : typeErrorsOnly (@unmodelled A).
Proof. by intros w e. Qed.

Lemma typeErrorsOnly_world : typeErrorsOnly world.
Proof. by intros w e. Qed.

Lemma typeErrorsOnly_load l : typeErrorsOnly (load l).
Proof. intros w e. unfold load. by destruct (heap w !! l). Qed.

Lemma typeErrorsOnly_modify f : typeErrorsOnly (modify f).
Proof. by intros w e. Qed.

Lemma typeErrorsOnly_alloc o : typeErrorsOnly (alloc o).
Proof. by intros w e. Qed.

Lemma typeErrorsOnly_bind {A B} (m : M A) (k : A → M B) :
  typeErrorsOnly m → (∀ a, typeErrorsOnly (k a)) → typeErrorsOnly (bind m k).
Proof.
  intros Hm Hk w e. unfold bind. specialize (Hm w).
  destruct (m w) as [[a|e'| |] w']; cbn in *; [apply Hk| |done..].
  intros [= <-]. by apply Hm.
Qed.

Lemma typeErrorsOnly_each {A} (f : A → M unit) xs :
  (∀ x, typeErrorsOnly (f x)) → typeErrorsOnly (each f xs).
Proof.
  intros Hf. induction xs as [|x xs IH]; cbn; [apply typeErrorsOnly_ret|].
  apply typeErrorsOnly_bind; [apply Hf|done].
Qed.

End TypeErrors.

Ltac type_errors :=
  repeat first
    [ apply typeErrorsOnly_bind; [|intros ?]
    | apply typeErrorsOnly_each; intros ?
    | match goal with
      | |- ∀ _, _ => intros ?
      | |- typeErrorsOnly (match ?x with _ => _ end) => destruct x
      | |- typeErrorsOnly (if ?x then _ else _) => destruct x
      | |- typeErrorsOnly (let _ := _ in _) => cbv zeta
      end
    | apply typeErrorsOnly_ret | apply typeErrorsOnly_throw
    | apply typeErrorsOnly_unmodelled | apply typeErrorsOnly_world
    | apply typeErrorsOnly_load | apply typeErrorsOnly_modify
    | apply typeErrorsOnly_alloc ].

Lemma configure_typeErrorsOnly found opts :
  typeErrorsOnly
    (var controller := instantiate found;
     (if Opts.enableKeyboard opts then enableKeyboard controller else ret tt) ;;
     match Opts.buttons opts with
     | Some bs => each (λ kv, remapButton controller kv.1 kv.2) (Js.forIn bs)
     | None => ret tt
     end ;;
     ret controller)%js.
Proof.
  unfold instantiate, construct, addNewButton, addButton, subscribe,
    newController, newButton, enableKeyboard, remapButton, method, store,
    gamee_keydown, gamee_keyup.
  type_errors.
Qed.

(** X21. The one [Error] of [createController] is the unsupported
    type: it is thrown, with the type in its message and before
    anything is built, exactly when [type] names nothing in
    [controllerTypes], own or inherited; every other failure of the
    call is a [TypeError]. *)
Theorem X21_unsupported_is_the_only_error type opts w message w' :
  createController type opts w = (Throw (Error message), w') ↔
  Js.get controllerTypes type = Js.Undefined ∧
  message = String.append "Unsupported controller type, " type ∧
  w' = w.
Proof.
  split.
  - unfold createController.
    destruct (Js.get controllerTypes type) as [k|n|] eqn:Hfound;
      [| |by intros [= <- <-]].
    all: intros Hthrow;
      pose proof (configure_typeErrorsOnly (Js.get controllerTypes type)
                    (default Opts.empty opts) w (Error message)) as Hte;
      rewrite Hfound in Hte; cbv zeta in Hthrow; rewrite Hthrow in Hte;
      by specialize (Hte eq_refl).
  - intros (Hnone & -> & ->). by apply createController_unsupported.
Qed.

(** ** The further properties at work *)

(** [right] of a [TwoButtons] controller becomes [brake]. *)
Lemma X1_remap_moves_button_witness :
  let w := (createController "TwoButtons" None init).2 in
  ∃ c b,
    heap w !! 0%nat = Some (OController c) ∧
    proto c = ControllerPrototype ∧
    wired c ∧
    Js.get (buttons c) "right" = Js.Own (SRef 2%nat) ∧
    heap w !! 2%nat = Some (OButton b) ∧
    b_on b = Button_on ∧
    "right" ≠ "brake" ∧ "right" ≠ "" ∧ "right" ≠ "__proto__" ∧
    "brake" ≠ "" ∧ "brake" ≠ "__proto__" ∧
    ∃ c1 w1,
      remapButton 0%nat "right" (mkNewProp "brake") w = (Ret tt, w1) ∧
      heap w1 !! 0%nat = Some (OController c1) ∧
      (∀ l', l' ≠ 0%nat → heap w1 !! l' = heap w !! l') ∧
      Js.own (buttons c1) "right" = None ∧
      Js.own (buttons c1) "brake" = Some (SRef 2%nat) ∧
      (∀ k, k ≠ "right" → k ≠ "brake" →
            Js.own (buttons c1) k = Js.own (buttons c) k) ∧
      Js.own (buttonAlias c1) "right" = Some "brake" ∧
      (∀ k, k ≠ "right" →
            Js.own (buttonAlias c1) k = Js.own (buttonAlias c) k) ∧
      ∀ down,
        trigger v8 3 0%nat (privateEvent down)
                (Some (mkPayload (FString "right"))) w1
        = (Ret (Some (mkPayload (FString "brake"))), pressed 2%nat b down w1).
Proof.
  cbv zeta. eexists _, _.
  split; [vm_compute; reflexivity|].
  split; [reflexivity|].
  split; [repeat split|].
  split; [reflexivity|].
  split; [vm_compute; reflexivity|].
  split; [reflexivity|].
  do 5 (split; [discriminate|]).
  eapply (X1_remap_moves_button v8 0);
    first [ vm_compute; reflexivity | discriminate | repeat split ].
Defined.

(** A [TwoButtons] controller asked to remap [fire] and [jump]. *)
Lemma X2_unknown_remaps_ignored_witness :
  let bs := [("fire", mkNewProp "shoot"); ("jump", mkNewProp "hop")] in
  Js.own catalog "TwoButtons" = Some [("left", 37); ("right", 39)] ∧
  "TwoButtons" ≠ "Touch" ∧
  Forall (λ kv : string * NewProp,
            (kv.1 ∉ [("left", 37); ("right", 39)].*1) ∧
            Js.inherited kv.1 = false) bs ∧
  createController "TwoButtons" (Some (Opts.mk true (Some bs))) init
  = createController "TwoButtons" (Some (Opts.mk true None)) init.
Proof.
  cbv zeta.
  assert (Forall (λ kv : string * NewProp,
                    (kv.1 ∉ [("left", 37); ("right", 39)].*1) ∧
                    Js.inherited kv.1 = false)
                 [("fire", mkNewProp "shoot"); ("jump", mkNewProp "hop")])
    as Hbs.
  { repeat (apply Forall_cons_2; [split; [|reflexivity]|]);
      [..|apply Forall_nil_2];
      cbn; intros Hin;
      repeat (apply elem_of_cons in Hin as [Hin|Hin]; [discriminate|]);
      by apply elem_of_nil in Hin. }
  split; [reflexivity|]. split; [discriminate|]. split; [exact Hbs|].
  apply (X2_unknown_remaps_ignored init "TwoButtons" _ true _ eq_refl);
    [discriminate|exact Hbs].
Defined.

(** [toString] remapped to [fire] on a [OneButton] controller. *)
Lemma X3_remap_inherited_name_witness :
  let w := (createController "OneButton" None init).2 in
  ∃ c,
    heap w !! 0%nat = Some (OController c) ∧
    proto c = ControllerPrototype ∧
    wired c ∧
    Js.own (buttons c) "toString" = None ∧
    Js.inherited "toString" = true ∧
    "toString" ≠ "fire" ∧ "fire" ≠ "" ∧ "fire" ≠ "__proto__" ∧
    ∃ c1 w1,
      remapButton 0%nat "toString" (mkNewProp "fire") w = (Ret tt, w1) ∧
      heap w1 !! 0%nat = Some (OController c1) ∧
      Js.own (buttons c1) "fire" = Some (SBuiltin "toString") ∧
      trigger v8 1 0%nat (keyEvent true)
              (Some (mkPayload (FString "fire"))) w1
      = (Throw TypeError, w1).
Proof.
  cbv zeta. eexists.
  split; [vm_compute; reflexivity|].
  split; [reflexivity|].
  split; [repeat split|].
  split; [reflexivity|].
  split; [reflexivity|].
  do 3 (split; [discriminate|]).
  eapply (X3_remap_inherited_name v8 0);
    first [ vm_compute; reflexivity | discriminate | repeat split ].
Defined.

(** [left] becomes [throttle], then [throttle] becomes [gas]. *)
Lemma X4_remap_chain_loses_first_name_witness :
  let w := (createController "TwoButtons" None init).2 in
  ∃ c b,
    heap w !! 0%nat = Some (OController c) ∧
    proto c = ControllerPrototype ∧
    wired c ∧
    Js.get (buttons c) "left" = Js.Own (SRef 1%nat) ∧
    heap w !! 1%nat = Some (OButton b) ∧
    b_on b = Button_on ∧
    "left" ≠ "throttle" ∧ "throttle" ≠ "gas" ∧ "left" ≠ "gas" ∧
    "left" ≠ "" ∧ "throttle" ≠ "" ∧ "gas" ≠ "" ∧
    "left" ≠ "__proto__" ∧ "throttle" ≠ "__proto__" ∧ "gas" ≠ "__proto__" ∧
    Js.inherited "throttle" = false ∧
    ∃ w1 w2,
      remapButton 0%nat "left" (mkNewProp "throttle") w = (Ret tt, w1) ∧
      remapButton 0%nat "throttle" (mkNewProp "gas") w1 = (Ret tt, w2) ∧
      trigger v8 3 0%nat (privateEvent true)
              (Some (mkPayload (FString "left"))) w2
        = (Ret (Some (mkPayload (FString "throttle"))), w2) ∧
      trigger v8 3 0%nat (privateEvent true)
              (Some (mkPayload (FString "throttle"))) w2
        = (Ret (Some (mkPayload (FString "gas"))), pressed 1%nat b true w2).
Proof.
  cbv zeta. eexists _, _.
  split; [vm_compute; reflexivity|].
  split; [reflexivity|].
  split; [repeat split|].
  split; [reflexivity|].
  split; [vm_compute; reflexivity|].
  split; [reflexivity|].
  do 9 (split; [discriminate|]).
  split; [reflexivity|].
  eapply (X4_remap_chain_loses_first_name v8 0);
    first [ vm_compute; reflexivity | discriminate | repeat split ].
Defined.

(** The Button of a [OneButton] controller remapped to the empty name. *)
Lemma X5_remap_to_empty_name_witness :
  let w := (createController "OneButton" None init).2 in
  ∃ c,
    heap w !! 0%nat = Some (OController c) ∧
    proto c = ControllerPrototype ∧
    wired c ∧
    Js.get (buttons c) "button" = Js.Own (SRef 1%nat) ∧
    "button" ≠ "" ∧ "button" ≠ "__proto__" ∧
    Js.inherited "button" = false ∧
    ∃ c1 w1,
      remapButton 0%nat "button" (mkNewProp "") w = (Ret tt, w1) ∧
      heap w1 !! 0%nat = Some (OController c1) ∧
      Js.own (buttons c1) "" = Some (SRef 1%nat) ∧
      Js.own (buttons c1) "button" = None ∧
      ∀ n, n = "button" ∨ n = "" →
        trigger v8 2 0%nat (privateEvent true)
                (Some (mkPayload (FString n))) w1
        = (Ret (Some (mkPayload (FString n))), w1).
Proof.
  cbv zeta. eexists.
  split; [vm_compute; reflexivity|].
  split; [reflexivity|].
  split; [repeat split|].
  split; [reflexivity|].
  do 2 (split; [discriminate|]).
  split; [reflexivity|].
  eapply (X5_remap_to_empty_name v8 0);
    first [ vm_compute; reflexivity | discriminate | repeat split ].
Defined.

(** A fresh Button [fire] added to a [OneButton] controller. *)
Lemma X6_addButton_stores_under_key_witness :
  let w := (var c := createController "OneButton" None;
            newButton "fire" 70 ;; ret c)%js init in
  ∃ c bt,
    heap w.2 !! 0%nat = Some (OController c) ∧
    proto c = ControllerPrototype ∧
    wired c ∧
    heap w.2 !! 2%nat = Some (OButton bt) ∧
    b_on bt = Button_on ∧
    key bt ≠ "" ∧ key bt ≠ "__proto__" ∧
    ∃ c1 w1,
      addButton 0%nat 2%nat w.2 = (Ret tt, w1) ∧
      heap w1 !! 0%nat = Some (OController c1) ∧
      (∀ l, l ≠ 0%nat → heap w1 !! l = heap w.2 !! l) ∧
      Js.own (buttons c1) (key bt) = Some (SRef 2%nat) ∧
      (∀ k, k ≠ key bt → Js.own (buttons c1) k = Js.own (buttons c) k) ∧
      buttonAlias c1 = buttonAlias c ∧
      trigger v8 2 0%nat (keyEvent false)
              (Some (mkPayload (FString (key bt)))) w1
      = (Ret (Some (mkPayload (FString (key bt)))), pressed 2%nat bt false w1).
Proof.
  cbv zeta. eexists _, _.
  split; [vm_compute; reflexivity|].
  split; [reflexivity|].
  split; [repeat split|].
  split; [vm_compute; reflexivity|].
  split; [reflexivity|].
  do 2 (split; [discriminate|]).
  eapply (X6_addButton_stores_under_key v8 0);
    first [ vm_compute; reflexivity | discriminate | repeat split ].
Defined.

(** The table of a [TwoButtons] controller at the code 39. *)
Lemma X7_keyCodes_sound_witness :
  let w := (createController "TwoButtons" None init).2 in
  ∃ c,
    heap w !! 0%nat = Some (OController c) ∧
    keyCodesOf (heap w) (buttons c) !! 39 = Some 2%nat ∧
    39 ≠ 0 ∧
    ∃ k b, (k, SRef 2%nat) ∈ buttons c ∧ heap w !! 2%nat = Some (OButton b) ∧
           keyCode b = 39.
Proof.
  cbv zeta. eexists.
  split; [vm_compute; reflexivity|].
  split; [vm_compute; reflexivity|].
  apply (X7_keyCodes_sound _ _ 39 2%nat). vm_compute. reflexivity.
Defined.

(** The space bar on a [OneButton] controller. *)
Lemma X8_keyboard_reaches_button_witness :
  let w := (createController "OneButton" None init).2 in
  ∃ c bt,
    heap w !! 0%nat = Some (OController c) ∧
    proto c = ControllerPrototype ∧
    wired c ∧
    keydownListeners w = [] ∧
    keyupListeners w = [] ∧
    heap w !! 1%nat = Some (OButton bt) ∧
    Js.get (buttons c) (key bt) = Js.Own (SRef 1%nat) ∧
    b_on bt = Button_on ∧
    key bt ≠ "" ∧
    keyCode bt ≠ 0 ∧
    (∀ k' l' b', (k', SRef l') ∈ buttons c →
                 heap w !! l' = Some (OButton b') →
                 keyCode b' = keyCode bt → l' = 1%nat) ∧
    ∃ w1,
      enableKeyboard 0%nat w = (Ret tt, w1) ∧
      windowKey v8 false 2 (keyCode bt) w1
      = (Ret tt, pressed 1%nat bt false (prevented (keyCode bt) w1)).
Proof.
  cbv zeta.
  assert (∀ (k' : string) (l' : loc),
            (k', SRef l') ∈ [("button", SRef 1%nat)] → l' = 1%nat) as Hone.
  { intros k' l' Hin. apply elem_of_cons in Hin as [Heq|Hin];
      [by injection Heq|by apply elem_of_nil in Hin]. }
  eexists _, _.
  split; [vm_compute; reflexivity|].
  split; [reflexivity|].
  split; [repeat split|].
  split; [reflexivity|].
  split; [reflexivity|].
  split; [vm_compute; reflexivity|].
  split; [reflexivity|].
  split; [reflexivity|].
  split; [discriminate|].
  split; [discriminate|].
  split; [intros k' l' b' Hin _ _; exact (Hone k' l' Hin)|].
  eapply (X8_keyboard_reaches_button v8 0 _ 0%nat _ 1%nat);
    first [ vm_compute; reflexivity | discriminate
          | intros k' l' b' Hin _ _; exact (Hone k' l' Hin)
          | repeat split ].
Defined.

(** The space bar after the Button of a [OneButton] controller was
    renamed [fire]. *)
Lemma X9_keyboard_misses_renamed_button_witness :
  let w := (createController "OneButton" None init).2 in
  ∃ c bt,
    heap w !! 0%nat = Some (OController c) ∧
    proto c = ControllerPrototype ∧
    wired c ∧
    keydownListeners w = [] ∧
    keyupListeners w = [] ∧
    heap w !! 1%nat = Some (OButton bt) ∧
    Js.get (buttons c) (key bt) = Js.Own (SRef 1%nat) ∧
    keyCode bt ≠ 0 ∧
    (∀ k' l' b', (k', SRef l') ∈ buttons c →
                 heap w !! l' = Some (OButton b') →
                 keyCode b' = keyCode bt → l' = 1%nat) ∧
    "fire" ≠ key bt ∧ "fire" ≠ "__proto__" ∧
    Js.inherited (key bt) = false ∧
    ∃ w1 w2 c2,
      enableKeyboard 0%nat w = (Ret tt, w1) ∧
      remapButton 0%nat (key bt) (mkNewProp "fire") w1 = (Ret tt, w2) ∧
      heap w2 !! 0%nat = Some (OController c2) ∧
      Js.own (buttons c2) "fire" = Some (SRef 1%nat) ∧
      windowKey v8 true 1 (keyCode bt) w2
      = (Ret tt, prevented (keyCode bt) w2).
Proof.
  cbv zeta.
  assert (∀ (k' : string) (l' : loc),
            (k', SRef l') ∈ [("button", SRef 1%nat)] → l' = 1%nat) as Hone.
  { intros k' l' Hin. apply elem_of_cons in Hin as [Heq|Hin];
      [by injection Heq|by apply elem_of_nil in Hin]. }
  eexists _, _.
  split; [vm_compute; reflexivity|].
  split; [reflexivity|].
  split; [repeat split|].
  split; [reflexivity|].
  split; [reflexivity|].
  split; [vm_compute; reflexivity|].
  split; [reflexivity|].
  split; [discriminate|].
  split; [intros k' l' b' Hin _ _; exact (Hone k' l' Hin)|].
  split; [discriminate|].
  split; [discriminate|].
  split; [reflexivity|].
  eapply (X9_keyboard_misses_renamed_button v8 0 _ 0%nat _ 1%nat);
    first [ vm_compute; reflexivity | discriminate
          | intros k' l' b' Hin _ _; exact (Hone k' l' Hin)
          | repeat split ].
Defined.

(** The down arrow on a [SixButtons] controller. *)
Lemma X10_catalog_keyboard_witness :
  Js.own catalog "SixButtons"
    = Some [("up", 38); ("left", 37); ("right", 39); ("down", 40); ("A", 32);
            ("B", 17)] ∧
  ("down", 40) ∈ [("up", 38); ("left", 37); ("right", 39); ("down", 40);
                  ("A", 32); ("B", 17)] ∧
  keydownListeners init = [] ∧
  keyupListeners init = [] ∧
  ∃ l c b w1,
    createController "SixButtons" (Some (Opts.mk true None)) init
      = (Ret l, w1) ∧
    heap w1 !! l = Some (OController c) ∧
    holds w1 c "down" 40 b ∧
    windowKey v8 true 2 40 w1
    = (Ret tt,
       pressed b (mkButton true "down" 40 Button_on) true (prevented 40 w1)).
Proof.
  assert (("down", 40) ∈ [("up", 38); ("left", 37); ("right", 39);
                          ("down", 40); ("A", 32); ("B", 17)]) as Hin
    by (do 3 right; left).
  split; [reflexivity|]. split; [exact Hin|].
  split; [reflexivity|]. split; [reflexivity|].
  exact (X10_catalog_keyboard v8 0 init "SixButtons" _ "down" 40 true
           eq_refl Hin eq_refl eq_refl).
Defined.

(** The key 65 on a [TwoButtons] controller. *)
Lemma X11_unmapped_key_ignored_witness :
  let w := (createController "TwoButtons" None init).2 in
  ∃ c,
    heap w !! 0%nat = Some (OController c) ∧
    proto c = ControllerPrototype ∧
    keydownListeners w = [] ∧
    keyupListeners w = [] ∧
    (65 = 0 ∨
     ∀ k l b, (k, SRef l) ∈ buttons c → heap w !! l = Some (OButton b) →
              keyCode b ≠ 65) ∧
    ∃ w1,
      enableKeyboard 0%nat w = (Ret tt, w1) ∧
      windowKey v8 true 5 65 w1 = (Ret tt, w1).
Proof.
  cbv zeta.
  assert (∀ (k : string) (l : loc) (b : Button),
            (k, SRef l) ∈ [("left", SRef 1%nat); ("right", SRef 2%nat)] →
            heap (createController "TwoButtons" None init).2 !! l
              = Some (OButton b) →
            keyCode b ≠ 65) as Hnone.
  { intros k l b Hin Hl.
    repeat (apply elem_of_cons in Hin as [Heq|Hin];
            [injection Heq as -> ->; vm_compute in Hl; injection Hl as <-;
             discriminate|]).
    by apply elem_of_nil in Hin. }
  eexists.
  split; [vm_compute; reflexivity|].
  split; [reflexivity|].
  split; [reflexivity|].
  split; [reflexivity|].
  split; [right; exact Hnone|].
  eapply (X11_unmapped_key_ignored v8 5);
    first [ vm_compute; reflexivity | right; exact Hnone ].
Defined.

(** Down, up, up, down on the Button of a [OneButton] controller. *)
Lemma X15_isDown_follows_last_event_witness :
  let w := (createController "OneButton" None init).2 in
  ∃ b,
    heap w !! 1%nat = Some (OButton b) ∧
    b_on b = Button_on ∧
    ∃ w',
      each (λ down, trigger v8 1 1%nat (keyEvent down) None ;; ret tt)%js
           [true; false; false; true] w
      = (Ret tt, w') ∧
      fired w' = fired w ++ ((λ down, (1%nat, keyEvent down))
                               <$> [true; false; false; true]) ∧
      isDown 1%nat w'
      = (Ret (default (_pressed b) (last [true; false; false; true])), w').
Proof.
  cbv zeta. eexists.
  split; [vm_compute; reflexivity|].
  split; [reflexivity|].
  eapply (X15_isDown_follows_last_event v8 0); vm_compute; reflexivity.
Defined.

(** The host releases [A] on a [FourButtons] controller. *)
Lemma X16_catalog_host_events_witness :
  Js.own catalog "FourButtons"
    = Some [("up", 38); ("left", 37); ("right", 39); ("A", 32)] ∧
  ("A", 32) ∈ [("up", 38); ("left", 37); ("right", 39); ("A", 32)] ∧
  ∃ l c b w1,
    requestController "FourButtons" None init = (Ret l, w1) ∧
    heap w1 !! l = Some (OController c) ∧
    holds w1 c "A" 32 b ∧
    Session_trigger v8 3 (privateEvent false)
                    (Some (mkPayload (FString "A"))) w1
    = (Ret (Some (mkPayload (FString "A"))),
       pressed b (mkButton true "A" 32 Button_on) false w1).
Proof.
  assert (("A", 32) ∈ [("up", 38); ("left", 37); ("right", 39); ("A", 32)])
    as Hin by (do 3 right; left).
  split; [reflexivity|]. split; [exact Hin|].
  exact (X16_catalog_host_events v8 0 init "FourButtons" _ "A" 32 false
           eq_refl Hin).
Defined.

(** [trigger("keyup")] on a [TwoButtons] controller. *)
Lemma X17_key_event_without_payload_throws_witness :
  let w := (createController "TwoButtons" None init).2 in
  ∃ c,
    heap w !! 0%nat = Some (OController c) ∧
    wired c ∧
    trigger v8 1 0%nat (keyEvent false) None w = (Throw TypeError, w) ∧
    trigger v8 1 0%nat (privateEvent false) None w = (Throw TypeError, w).
Proof.
  cbv zeta. eexists.
  split; [vm_compute; reflexivity|].
  split; [repeat split|].
  eapply (X17_key_event_without_payload_throws v8 0);
    first [ vm_compute; reflexivity | repeat split ].
Defined.

(** A [keydown] for [fire] on a [TwoButtons] controller. *)
Lemma X18_unknown_button_dropped_witness :
  let w := (createController "TwoButtons" None init).2 in
  ∃ c,
    heap w !! 0%nat = Some (OController c) ∧
    wired c ∧
    (FString "fire" = FUndefined ∨ FString "fire" = FString "" ∨
     ∃ n, FString "fire" = FString n ∧ Js.own (buttons c) n = None ∧
          Js.inherited n = false) ∧
    trigger v8 1 0%nat (keyEvent true) (Some (mkPayload (FString "fire"))) w
    = (Ret (Some (mkPayload (FString "fire"))), w).
Proof.
  cbv zeta. eexists.
  split; [vm_compute; reflexivity|].
  split; [repeat split|].
  split; [right; right; by exists "fire"|].
  eapply (X18_unknown_button_dropped v8 0);
    first [ vm_compute; reflexivity | right; right; by exists "fire"
          | repeat split ].
Defined.

(** A touch controller asked for the keyboard. *)
Lemma X19_touch_options_throw_witness :
  let opts := Opts.mk true None in
  (Opts.enableKeyboard opts = true ∨
   ∃ bs, Opts.buttons opts = Some bs ∧ bs ≠ []) ∧
  ∃ w',
    createController "Touch" (Some opts) init = (Throw TypeError, w') ∧
    requestController "Touch" (Some opts) init = (Throw TypeError, w') ∧
    mainController w' = mainController init ∧
    gameeNative w' = gameeNative init.
Proof.
  cbv zeta. split; [by left|].
  apply (X19_touch_options_throw init (Opts.mk true None)). by left.
Defined.

(** [$touchmove] on a touch controller, on which the game listens to
    [touchmove]. *)
Lemma X20_touch_relays_witness :
  let extra := [("touchmove", Public "keydown")] in
  "touchmove" ∈ ["touchstart"; "touchend"; "touchmove"; "touchleave";
                 "touchcancel"] ∧
  listeners extra (String.append "$" "touchmove") = [] ∧
  ∃ l c w1,
    createController "Touch" None init = (Ret l, w1) ∧
    heap w1 !! l = Some (OController c) ∧
    buttons c = [] ∧
    listeners (c_on c) (String.append "$" "touchmove") = [Relay "touchmove"] ∧
    listeners (c_on c) "touchmove" = [] ∧
    trigger v8 3 l (String.append "$" "touchmove") None w1 = (Ret None, w1) ∧
    each (λ eh : string * CHandler, subscribe l eh.1 eh.2) extra w1
      = (Ret tt, subscribed l c extra w1) ∧
    trigger v8 2 l (String.append "$" "touchmove") None
            (subscribed l c extra w1)
      = trigger v8 1 l "touchmove" None (subscribed l c extra w1).
Proof.
  cbv zeta.
  assert ("touchmove" ∈ ["touchstart"; "touchend"; "touchmove"; "touchleave";
                         "touchcancel"]) as Hin
    by (do 2 right; left).
  split; [exact Hin|]. split; [reflexivity|].
  exact (X20_touch_relays v8 1 init "touchmove" None
           [("touchmove", Public "keydown")] Hin eq_refl).
Defined.

(** [createController("Bogus")]. *)
Lemma X21_unsupported_is_the_only_error_witness :
  Js.get controllerTypes "Bogus" = Js.Undefined ∧
  createController "Bogus" None init
  = (Throw (Error "Unsupported controller type, Bogus"), init).
Proof.
  split; [reflexivity|].
  apply (proj2 (X21_unsupported_is_the_only_error "Bogus" None init
                  "Unsupported controller type, Bogus" init)).
  by repeat split.
Defined.
